(** * farmit: the Auth and Farm services

    A shallow embedding of [src/auth/auth.service.ts] and
    [src/farm/farm.service.ts] together with the Prisma schema they run
    against.  The services are [async] methods that talk to Prisma, argon2,
    the JWT signer, the configuration and the event emitter, and wrap their
    whole body in [try { ... } catch (error) { ... }].  They are embedded as
    computations in a state-and-exception monad over a [World] that holds the
    two collections, the event bus, the console, the entropy source and an
    oracle deciding which collaborator calls fail.

    Replies and event payloads are JavaScript object literals in the source
    and [Json] values here.  Stored documents are records typed by the
    schema; [DateTime] is a number read off the world's [now], an [ObjectId]
    a string drawn from the world's supply. *)

From Stdlib Require Import List String Ascii ZArith NArith QArith Bool Lia Arith.
From Stdlib Require Import Init.Byte.
Import ListNotations.

Local Close Scope Q_scope.
Local Open Scope string_scope.
Local Open Scope list_scope.
Local Set Warnings "-register-all".

(** ** JavaScript values that cross the service boundary *)

Inductive Json : Type :=
| JNull
| JBool (b : bool)
| JNum (q : Q)
| JStr (s : string)
| JArr (xs : list Json)
| JObj (fields : list (string * Json)).

Definition JInt (z : Z) : Json := JNum (inject_Z z).

Definition opt_json {A : Type} (f : A -> Json) (o : option A) : Json :=
  match o with
  | Some a => f a
  | None => JNull
  end.

(** [obj.key] for an own property; [None] stands for [undefined]. *)
Fixpoint get_field (k : string) (fields : list (string * Json)) : option Json :=
  match fields with
  | [] => None
  | (k', v) :: rest => if String.eqb k k' then Some v else get_field k rest
  end.

Definition prop (k : string) (j : Json) : option Json :=
  match j with
  | JObj fields => get_field k fields
  | _ => None
  end.

(** Does the key occur anywhere inside the value, at any depth? *)
Fixpoint has_key (k : string) (j : Json) : bool :=
  match j with
  | JArr xs =>
      (fix any (l : list Json) : bool :=
         match l with
         | [] => false
         | x :: l' => has_key k x || any l'
         end) xs
  | JObj fields =>
      (fix any (l : list (string * Json)) : bool :=
         match l with
         | [] => false
         | (k', v) :: l' => String.eqb k k' || has_key k v || any l'
         end) fields
  | _ => false
  end.

(** ** Buffers and their hexadecimal rendering *)

Module Buffer.

Definition hex_digit (n : N) : ascii :=
  match n with
  | 0%N => "0" | 1%N => "1" | 2%N => "2" | 3%N => "3"
  | 4%N => "4" | 5%N => "5" | 6%N => "6" | 7%N => "7"
  | 8%N => "8" | 9%N => "9" | 10%N => "a" | 11%N => "b"
  | 12%N => "c" | 13%N => "d" | 14%N => "e" | _ => "f"
  end%char.

Definition is_lower_hex (c : ascii) : bool :=
  let n := N_of_ascii c in
  ((48 <=? n) && (n <=? 57) || (97 <=? n) && (n <=? 102))%N.

(** [buf.toString('hex')]: two lowercase digits per byte, high nibble
    first. *)
Fixpoint toString_hex (buf : list byte) : string :=
  match buf with
  | [] => EmptyString
  | b :: rest =>
      String (hex_digit (Byte.to_N b / 16))
        (String (hex_digit (Byte.to_N b mod 16)) (toString_hex rest))
  end.

Fixpoint all_chars (p : ascii -> bool) (s : string) : bool :=
  match s with
  | EmptyString => true
  | String c s' => p c && all_chars p s'
  end.

End Buffer.

(** ** The Prisma schema *)

(** The relation fields ([User.farms], [Farm.farmer], [Farm.tasks]) are not
    stored: a user's farms are the farms whose [farmerId] is the user's id.
    The [Task] model is not touched by either service. *)

Record User : Type := mkUser {
  user_id : string;
  email : string;
  firstname : string;
  lastname : string;
  username : string;
  passwordhash : string;
  verified : option bool;
  token : option string;
  resetToken : option string;
  user_created_at : option Z;
  user_updated_at : option Z
}.

Record Location : Type := mkLocation {
  longitude : string;
  latitude : string
}.

Record SoilInfo : Type := mkSoilInfo {
  soilpH : Q;
  soilType : string
}.

Record Farm : Type := mkFarm {
  farm_id : string;
  farmerId : string;
  name : string;
  location : Location;
  size : Z;
  size_unit : string;
  status : string;
  soil : SoilInfo;
  farm_created_at : option Z;
  farm_updated_at : option Z
}.

(** The scalar fields of a [User] document, in schema order, as Prisma hands
    them to JavaScript. *)
Definition user_fields (u : User) : list (string * Json) :=
  [ ("id", JStr (user_id u));
    ("email", JStr (email u));
    ("firstname", JStr (firstname u));
    ("lastname", JStr (lastname u));
    ("username", JStr (username u));
    ("passwordhash", JStr (passwordhash u));
    ("verified", opt_json JBool (verified u));
    ("token", opt_json JStr (token u));
    ("resetToken", opt_json JStr (resetToken u));
    ("created_at", opt_json JInt (user_created_at u));
    ("updated_at", opt_json JInt (user_updated_at u)) ].

(** [select: { k1: true, k2: true, ... }] keeps exactly the named fields. *)
Definition select (keys : list string) (fields : list (string * Json)) : Json :=
  JObj (filter (fun kv => existsb (String.eqb (fst kv)) keys) fields).

Definition location_json (l : Location) : Json :=
  JObj [ ("longitude", JStr (longitude l)); ("latitude", JStr (latitude l)) ].

Definition soil_json (s : SoilInfo) : Json :=
  JObj [ ("soilpH", JNum (soilpH s)); ("soilType", JStr (soilType s)) ].

(** A [Farm] document as returned without a [select]: every scalar and
    composite field, no relation field. *)
Definition farm_json (f : Farm) : Json :=
  JObj [ ("id", JStr (farm_id f));
         ("farmerId", JStr (farmerId f));
         ("name", JStr (name f));
         ("location", location_json (location f));
         ("size", JInt (size f));
         ("size_unit", JStr (size_unit f));
         ("status", JStr (status f));
         ("soil", soil_json (soil f));
         ("created_at", opt_json JInt (farm_created_at f));
         ("updated_at", opt_json JInt (farm_updated_at f)) ].

(** ** Exceptions *)

Inductive Exn : Type :=
| BadRequestException (msg : string)
| InternalServerErrorException (msg : string)
| NotFoundException (msg : string)
| UnauthorizedException (msg : string)
| TypeError (msg : string)
| PrismaClientKnownRequestError (code : string)
| PrismaClientValidationError (msg : string)
| CollaboratorFailure (who : string).

(** The HTTP status a thrown value reaches the caller with: Nest maps its own
    [HttpException]s to their code and anything else to 500. *)
Definition http_status (e : Exn) : Z :=
  match e with
  | BadRequestException _ => 400
  | UnauthorizedException _ => 401
  | NotFoundException _ => 404
  | _ => 500
  end.

(** ** The world the services run in *)

Record World : Type := mkWorld {
  users : list User;
  farms : list Farm;
  emitted : list (string * Json);
  console : list Exn;
  entropy : nat -> byte;
  cursor : nat;
  faulty : nat -> bool;
  clock : nat;
  objectIds : nat -> string;
  minted : nat;
  now : Z
}.

Inductive Result (A : Type) : Type :=
| Ok (a : A)
| Throw (e : Exn).
Arguments Ok {A} a.
Arguments Throw {A} e.

Definition M (A : Type) : Type := World -> Result A * World.

Definition ret {A : Type} (a : A) : M A := fun w => (Ok a, w).

Definition throw {A : Type} (e : Exn) : M A := fun w => (Throw e, w).

Definition bind {A B : Type} (m : M A) (k : A -> M B) : M B :=
  fun w =>
    match m w with
    | (Ok a, w') => k a w'
    | (Throw e, w') => (Throw e, w')
    end.

(** [try { body } catch (error) { handler }] *)
Definition try_catch {A : Type} (body : M A) (handler : Exn -> M A) : M A :=
  fun w =>
    match body w with
    | (Ok a, w') => (Ok a, w')
    | (Throw e, w') => handler e w'
    end.

Declare Scope js_scope.
Delimit Scope js_scope with js.
Notation "x <- m ;; k" := (bind m (fun x => k))
  (at level 61, m at next level, right associativity) : js_scope.
Notation "m ;; k" := (bind m (fun _ => k))
  (at level 61, right associativity) : js_scope.
Local Open Scope js_scope.

Definition gets {A : Type} (f : World -> A) : M A := fun w => (Ok (f w), w).

Definition modify (f : World -> World) : M unit := fun w => (Ok tt, f w).

(** ** Truthiness, as tested by [if (!x)] *)

Definition truthy (j : Json) : bool :=
  match j with
  | JNull => false
  | JBool b => b
  | JNum q => negb (Qeq_bool q 0)
  | JStr s => negb (String.eqb s EmptyString)
  | JArr _ => true
  | JObj _ => true
  end.

(** ** World updates *)

Definition set_users (us : list User) (w : World) : World :=
  mkWorld us (farms w) (emitted w) (console w) (entropy w) (cursor w)
    (faulty w) (clock w) (objectIds w) (minted w) (now w).

Definition set_farms (fs : list Farm) (w : World) : World :=
  mkWorld (users w) fs (emitted w) (console w) (entropy w) (cursor w)
    (faulty w) (clock w) (objectIds w) (minted w) (now w).

Definition set_emitted (es : list (string * Json)) (w : World) : World :=
  mkWorld (users w) (farms w) es (console w) (entropy w) (cursor w)
    (faulty w) (clock w) (objectIds w) (minted w) (now w).

Definition set_console (es : list Exn) (w : World) : World :=
  mkWorld (users w) (farms w) (emitted w) es (entropy w) (cursor w)
    (faulty w) (clock w) (objectIds w) (minted w) (now w).

Definition set_cursor (n : nat) (w : World) : World :=
  mkWorld (users w) (farms w) (emitted w) (console w) (entropy w) n
    (faulty w) (clock w) (objectIds w) (minted w) (now w).

Definition set_clock (n : nat) (w : World) : World :=
  mkWorld (users w) (farms w) (emitted w) (console w) (entropy w) (cursor w)
    (faulty w) n (objectIds w) (minted w) (now w).

Definition set_minted (n : nat) (w : World) : World :=
  mkWorld (users w) (farms w) (emitted w) (console w) (entropy w) (cursor w)
    (faulty w) (clock w) (objectIds w) n (now w).

(** ** Collaborators *)

(** Every awaited call into a collaborator may reject.  The oracle [faulty]
    says which calls do, indexed by their position in the run. *)
Definition await_call (who : string) : M unit :=
  fun w =>
    if faulty w (clock w)
    then (Throw (CollaboratorFailure who), set_clock (S (clock w)) w)
    else (Ok tt, set_clock (S (clock w)) w).

(** The next [k] collaborator calls starting at call number [c] succeed. *)
Fixpoint quiet (f : nat -> bool) (c k : nat) : bool :=
  match k with
  | O => true
  | S k' => negb (f c) && quiet f (S c) k'
  end.

Definition calm (k : nat) (w : World) : Prop :=
  quiet (faulty w) (clock w) k = true.

(** [crypto.randomBytes(n)] *)
Definition randomBytes (n : nat) : M (list byte) :=
  fun w => (Ok (map (entropy w) (seq (cursor w) n)), set_cursor (cursor w + n) w).

(** [this.emitter.emit(name, payload)]: the event is handed to the bus and
    nothing comes back. *)
Definition emit (event : string) (payload : Json) : M unit :=
  modify (fun w => set_emitted (emitted w ++ [(event, payload)]) w).

(** [console.error(error)] *)
Definition console_error (e : Exn) : M unit :=
  modify (fun w => set_console (console w ++ [e]) w).

(** The pure part of the hashing and signing libraries and the configuration
    read at start-up. *)
Class Collaborators : Type := {
  argon_hash_with : list byte -> string -> string;
  argon_verify_with : string -> string -> bool;
  jwt_sign_with : Json -> option string -> option string -> Z -> string;
  config_get : string -> option string
}.

Section Services.

Context {collab : Collaborators}.

(** [argon.hash(plain)]: a fresh 16-byte salt, then the hash. *)
Definition argon_hash (plain : string) : M string :=
  salt <- randomBytes 16 ;;
  await_call "argon2.hash" ;;
  ret (argon_hash_with salt plain).

(** [argon.verify(hash, plain)] *)
Definition argon_verify (hash plain : string) : M bool :=
  await_call "argon2.verify" ;;
  ret (argon_verify_with hash plain).

(** [this.jwt.signAsync(payload, { secret, expiresIn })] *)
Definition jwt_signAsync (payload : Json) (secret expiresIn : option string)
  : M string :=
  await_call "jwt.signAsync" ;;
  t <- gets now ;;
  ret (jwt_sign_with payload secret expiresIn t).

End Services.

(** ** The Prisma client, over the two collections *)

Module Prisma.

Fixpoint update_first {A : Type} (p : A -> bool) (f : A -> A) (l : list A)
  : list A :=
  match l with
  | [] => []
  | x :: rest => if p x then f x :: rest else x :: update_first p f rest
  end.

Fixpoint remove_first {A : Type} (p : A -> bool) (l : list A) : list A :=
  match l with
  | [] => []
  | x :: rest => if p x then rest else x :: remove_first p rest
  end.

Definition by_email (e : string) (u : User) : bool := String.eqb (email u) e.

Definition by_user_id (i : string) (u : User) : bool := String.eqb (user_id u) i.

Definition by_username (n : string) (u : User) : bool :=
  String.eqb (username u) n.

Definition by_farm_id (i : string) (f : Farm) : bool := String.eqb (farm_id f) i.

Definition by_farmer (uid : string) (f : Farm) : bool :=
  String.eqb (farmerId f) uid.

Definition by_farmer_and_id (uid fid : string) (f : Farm) : bool :=
  by_farmer uid f && by_farm_id fid f.

(** [@default(auto()) @db.ObjectId] *)
Definition mint_id : M string :=
  fun w => (Ok (objectIds w (minted w)), set_minted (S (minted w)) w).

(** [@updatedAt] *)
Definition touch_user (t : Z) (u : User) : User :=
  mkUser (user_id u) (email u) (firstname u) (lastname u) (username u)
    (passwordhash u) (verified u) (token u) (resetToken u)
    (user_created_at u) (Some t).

Definition touch_farm (t : Z) (f : Farm) : Farm :=
  mkFarm (farm_id f) (farmerId f) (name f) (location f) (size f)
    (size_unit f) (status f) (soil f) (farm_created_at f) (Some t).

(** [prisma.user.findUnique({ where: { email } })] *)
Definition user_findUnique (e : string) : M (option User) :=
  await_call "prisma.user.findUnique" ;;
  gets (fun w => find (by_email e) (users w)).

(** [prisma.user.create({ data })]; both [email] and [username] are
    [@unique], a clash is error P2002.  [token] and [resetToken] are not
    given and start out null. *)
Definition user_create
  (e uname fname lname hash : string) (is_verified : bool) : M User :=
  await_call "prisma.user.create" ;;
  us <- gets users ;;
  if existsb (by_email e) us || existsb (by_username uname) us
  then throw (PrismaClientKnownRequestError "P2002")
  else
    i <- mint_id ;;
    t <- gets now ;;
    let u := mkUser i e fname lname uname hash (Some is_verified) None None
               (Some t) (Some t) in
    modify (fun w => set_users (users w ++ [u]) w) ;;
    ret u.

(** [prisma.user.update({ where, data })] for a unique [where]; no matching
    record is error P2025. *)
Definition user_update (unique : User -> bool) (data : User -> User) : M User :=
  await_call "prisma.user.update" ;;
  us <- gets users ;;
  match find unique us with
  | None => throw (PrismaClientKnownRequestError "P2025")
  | Some u =>
      t <- gets now ;;
      modify (fun w =>
        set_users (update_first unique (fun x => touch_user t (data x)) (users w)) w) ;;
      ret (touch_user t (data u))
  end.

(** [prisma.farm.create({ data })]; [location] and [soil] are required by the
    schema, leaving one out is a validation error. *)
Definition farm_create
  (uid fname : string) (loc : option Location) (sz : Z)
  (unit_ stat : string) (soilInfo : option SoilInfo) : M Farm :=
  await_call "prisma.farm.create" ;;
  match loc, soilInfo with
  | Some l, Some s =>
      i <- mint_id ;;
      t <- gets now ;;
      let f := mkFarm i uid fname l sz unit_ stat s (Some t) (Some t) in
      modify (fun w => set_farms (farms w ++ [f]) w) ;;
      ret f
  | _, _ => throw (PrismaClientValidationError "Argument missing.")
  end.

(** [prisma.user.update({ where: { id }, data: { farms: { connect: { id } } } })]:
    the farm is pointed at the user; either record missing is error P2025. *)
Definition user_connect_farm (uid fid : string) : M User :=
  await_call "prisma.user.update" ;;
  us <- gets users ;;
  fs <- gets farms ;;
  match find (by_user_id uid) us, find (by_farm_id fid) fs with
  | Some u, Some _ =>
      t <- gets now ;;
      modify (fun w =>
        set_farms
          (update_first (by_farm_id fid)
             (fun f => mkFarm (farm_id f) uid (name f) (location f) (size f)
                         (size_unit f) (status f) (soil f)
                         (farm_created_at f) (farm_updated_at f))
             (farms w)) w) ;;
      modify (fun w =>
        set_users (update_first (by_user_id uid) (touch_user t) (users w)) w) ;;
      ret (touch_user t u)
  | _, _ => throw (PrismaClientKnownRequestError "P2025")
  end.

(** [prisma.farm.findMany({ where: { farmerId } })] *)
Definition farm_findMany (uid : string) : M (list Farm) :=
  await_call "prisma.farm.findMany" ;;
  gets (fun w => filter (by_farmer uid) (farms w)).

(** [prisma.farm.findUnique({ where: { farmerId, id } })] *)
Definition farm_findUnique (uid fid : string) : M (option Farm) :=
  await_call "prisma.farm.findUnique" ;;
  gets (fun w => find (by_farmer_and_id uid fid) (farms w)).

(** [prisma.farm.update({ where: { id, farmerId }, data })] *)
Definition farm_update (uid fid : string) (data : Farm -> Farm) : M Farm :=
  await_call "prisma.farm.update" ;;
  fs <- gets farms ;;
  match find (by_farmer_and_id uid fid) fs with
  | None => throw (PrismaClientKnownRequestError "P2025")
  | Some f =>
      t <- gets now ;;
      modify (fun w =>
        set_farms
          (update_first (by_farmer_and_id uid fid)
             (fun x => touch_farm t (data x)) (farms w)) w) ;;
      ret (touch_farm t (data f))
  end.

(** [prisma.farm.delete({ where: { farmerId, id } })] *)
Definition farm_delete (uid fid : string) : M Farm :=
  await_call "prisma.farm.delete" ;;
  fs <- gets farms ;;
  match find (by_farmer_and_id uid fid) fs with
  | None => throw (PrismaClientKnownRequestError "P2025")
  | Some f =>
      modify (fun w =>
        set_farms (remove_first (by_farmer_and_id uid fid) (farms w)) w) ;;
      ret f
  end.

End Prisma.

(** ** Request bodies *)

(** Modelled from the spec: the declarations in [src/auth/dto] are not among
    the sources; the fields are the ones the spec lists for each operation
    and the service reads. *)
Module CreateUserDto.
Record t : Type := make {
  email : string;
  username : string;
  firstname : string;
  lastname : string;
  password : string
}.
End CreateUserDto.

Module LoginDto.
Record t : Type := make {
  email : string;
  password : string
}.
End LoginDto.

Module ForgotPasswordDto.
Record t : Type := make {
  email : string
}.
End ForgotPasswordDto.

Module ResetPasswordDto.
Record t : Type := make {
  email : string;
  newPassword : string
}.
End ResetPasswordDto.

(** Modelled from the spec: the declaration of [CreateFarmDto] is not among
    the sources; the fields are the ones [createFarm] reads, typed like their
    counterparts in [UpdateFarmDto]. *)
Module CreateFarmDto.
Record t : Type := make {
  name : string;
  location : option Location;
  size : Z;
  size_unit : string;
  status : string;
  soilInfo : option SoilInfo
}.
End CreateFarmDto.

(** [src/farm/dto/update-farm.dto.ts].  [location] and [soil] are declared
    [any] and optional; they are carried at the type the schema accepts. *)
Module UpdateFarmDto.
Record t : Type := make {
  name : string;
  location : option Location;
  size : Z;
  size_unit : string;
  status : string;
  soil : option SoilInfo
}.
End UpdateFarmDto.

(** The object literal every operation answers with. *)
Definition envelope (message status_ : string) (statusCode : Z) (data : Json)
  : Json :=
  JObj [ ("message", JStr message);
         ("status", JStr status_);
         ("statusCode", JInt statusCode);
         ("data", data) ].

(** ** [AuthService] *)

Module AuthService.
Section WithCollaborators.

Context {collab : Collaborators}.

Definition set_token (t : option string) (u : User) : User :=
  mkUser (user_id u) (email u) (firstname u) (lastname u) (username u)
    (passwordhash u) (verified u) t (resetToken u)
    (user_created_at u) (user_updated_at u).

Definition set_resetToken (t : option string) (u : User) : User :=
  mkUser (user_id u) (email u) (firstname u) (lastname u) (username u)
    (passwordhash u) (verified u) (token u) t
    (user_created_at u) (user_updated_at u).

Definition set_verified (b : option bool) (u : User) : User :=
  mkUser (user_id u) (email u) (firstname u) (lastname u) (username u)
    (passwordhash u) b (token u) (resetToken u)
    (user_created_at u) (user_updated_at u).

Definition set_passwordhash (h : string) (u : User) : User :=
  mkUser (user_id u) (email u) (firstname u) (lastname u) (username u)
    h (verified u) (token u) (resetToken u)
    (user_created_at u) (user_updated_at u).

(** [select: { email: true, username: true }]; the record is handed on whole
    and only the selected fields are read from it. *)
Definition getUserByEmail (user_email : string) : M User :=
  try_catch
    (user <- Prisma.user_findUnique user_email ;;
     match user with
     | None => throw (NotFoundException "User could not be found.")
     | Some u => ret u
     end)
    (fun error => throw (InternalServerErrorException "Please try again.")).

Definition randomDigits : M string :=
  buf <- randomBytes 3 ;;
  ret (Buffer.toString_hex buf).

Definition register (dto : CreateUserDto.t) : M Json :=
  try_catch
    (passwordhash <- argon_hash (CreateUserDto.password dto) ;;
     created <- Prisma.user_create
                  (CreateUserDto.email dto) (CreateUserDto.username dto)
                  (CreateUserDto.firstname dto) (CreateUserDto.lastname dto)
                  passwordhash false ;;
     let newUser := select ["email"; "username"] (user_fields created) in
     if negb (truthy newUser)
     then throw (InternalServerErrorException "User could not registered.")
     else
       let email_data :=
         JObj [ ("to", JStr (CreateUserDto.email dto));
                ("data", JObj [ ("name", JStr (CreateUserDto.username dto)) ]) ] in
       emit "welcome-email" email_data ;;
       ret (envelope "User registered." "Success" 201 newUser))
    (fun error =>
       console_error error ;;
       throw (InternalServerErrorException "Registration failed.")).

(** [select: { id, email, username, passwordhash, verified }]; reading
    [user.passwordhash] off [null] is a [TypeError]. *)
Definition login (dto : LoginDto.t) : M Json :=
  try_catch
    (found <- Prisma.user_findUnique (LoginDto.email dto) ;;
     match found with
     | None =>
         throw (TypeError "Cannot read properties of null (reading 'passwordhash')")
     | Some user =>
         matches <- argon_verify (passwordhash user) (LoginDto.password dto) ;;
         if negb matches
         then throw (UnauthorizedException "Invalid password")
         else
           if negb (truthy (opt_json JBool (verified user)))
           then
             verificationToken <- randomDigits ;;
             Prisma.user_update (Prisma.by_email (email user))
               (set_token (Some verificationToken)) ;;
             let email_data :=
               JObj [ ("to", JStr (email user));
                      ("data", JObj [ ("name", JStr (username user));
                                      ("token", JStr verificationToken) ]) ] in
             emit "send-verification" email_data ;;
             ret (envelope "Please verify your account" "success" 200 JNull)
           else
             let payload :=
               JObj [ ("sub", JStr (user_id user));
                      ("email", JStr (email user)) ] in
             signed <- jwt_signAsync payload
                         (config_get "JWT_SECRET") (config_get "JWT_EXPIRE") ;;
             ret (JObj [ ("access_token", JStr signed) ])
     end)
    (fun error => throw (UnauthorizedException "Login failed, try again.")).

Definition forgotPassword (dto : ForgotPasswordDto.t) : M Json :=
  try_catch
    (user <- getUserByEmail (ForgotPasswordDto.email dto) ;;
     resetToken <- randomDigits ;;
     Prisma.user_update (Prisma.by_email (email user))
       (set_resetToken (Some resetToken)) ;;
     let data := JObj [ ("resetToken", JStr resetToken) ] in
     emit "send-reset-token" data ;;
     ret (envelope "Reset token has been sent to your email" "success" 200 JNull))
    (fun error =>
       console_error error ;;
       throw (InternalServerErrorException "Retrieving password failed.")).

(** [token === user.token], a string against a nullable string. *)
Definition strict_eq (submitted : string) (stored : option string) : bool :=
  match stored with
  | Some t => String.eqb submitted t
  | None => false
  end.

Definition verifyToken (email_ token_ : string) : M Json :=
  try_catch
    (found <- Prisma.user_findUnique email_ ;;
     match found with
     | None => throw (NotFoundException "User could not be found.")
     | Some user =>
         let matches := strict_eq token_ (token user) in
         if negb matches
         then throw (BadRequestException "Invalid OTP")
         else
           Prisma.user_update (Prisma.by_email email_) (set_verified (Some true)) ;;
           ret (envelope "Valid Token" "success" 200 JNull)
     end)
    (fun error =>
       console_error error ;;
       throw (InternalServerErrorException "Token could not be verified.")).

Definition resetPassword (dto : ResetPasswordDto.t) : M Json :=
  try_catch
    (passwordhash <- argon_hash (ResetPasswordDto.newPassword dto) ;;
     updatedUser <- Prisma.user_update
                      (Prisma.by_email (ResetPasswordDto.email dto))
                      (set_passwordhash passwordhash) ;;
     if negb (truthy (JObj (user_fields updatedUser)))
     then throw (InternalServerErrorException "Password could not be reset")
     else ret (envelope "Password Reset successfully." "success" 200 JNull))
    (fun error =>
       console_error error ;;
       throw (InternalServerErrorException "Password could not be reset.")).

End WithCollaborators.
End AuthService.

(** ** [FarmService] *)

Module FarmService.

Definition createFarm (userid : string) (dto : CreateFarmDto.t) : M Json :=
  try_catch
    (newFarm <- Prisma.farm_create userid
                  (CreateFarmDto.name dto) (CreateFarmDto.location dto)
                  (CreateFarmDto.size dto) (CreateFarmDto.size_unit dto)
                  (CreateFarmDto.status dto) (CreateFarmDto.soilInfo dto) ;;
     if negb (truthy (farm_json newFarm))
     then throw (InternalServerErrorException "Farm could not be added.")
     else
       Prisma.user_connect_farm userid (farm_id newFarm) ;;
       ret (envelope "Farm created" "success" 201 (farm_json newFarm)))
    (fun error =>
       console_error error ;;
       throw (InternalServerErrorException "Farm could not be added.")).

Definition getFarms (userid : string) : M Json :=
  try_catch
    (found <- Prisma.farm_findMany userid ;;
     let farms := JArr (map farm_json found) in
     if negb (truthy farms)
     then throw (NotFoundException "No farms found.")
     else ret (envelope "Farms retrieved." "success" 200 farms))
    (fun error =>
       console_error error ;;
       throw (InternalServerErrorException "Farms could not be retrieved.")).

Definition getById (userid farmid : string) : M Json :=
  try_catch
    (found <- Prisma.farm_findUnique userid farmid ;;
     match found with
     | None => throw (NotFoundException "Farm not found.")
     | Some farm =>
         ret (envelope "Farm retrieved successfully" "success" 200 (farm_json farm))
     end)
    (fun error =>
       console_error error ;;
       throw (InternalServerErrorException "Farm could not be retrieved")).

(** A field the body leaves [undefined] is not written. *)
Definition apply_update (dto : UpdateFarmDto.t) (f : Farm) : Farm :=
  mkFarm (farm_id f) (farmerId f)
    (UpdateFarmDto.name dto)
    (match UpdateFarmDto.location dto with Some l => l | None => location f end)
    (UpdateFarmDto.size dto)
    (UpdateFarmDto.size_unit dto)
    (UpdateFarmDto.status dto)
    (match UpdateFarmDto.soil dto with Some s => s | None => soil f end)
    (farm_created_at f) (farm_updated_at f).

Definition updateFarm (userid farmid : string) (dto : UpdateFarmDto.t) : M Json :=
  try_catch
    (farm <- Prisma.farm_update userid farmid (apply_update dto) ;;
     if negb (truthy (farm_json farm))
     then throw (InternalServerErrorException "Farm could not be updated.")
     else ret (envelope "Farm updated successfully" "success" 200 (farm_json farm)))
    (fun error =>
       console_error error ;;
       throw (InternalServerErrorException "Farm could not be updated.")).

Definition deleteFarm (userid farmid : string) : M Json :=
  try_catch
    (Prisma.farm_delete userid farmid ;;
     ret (envelope "Farm deleted successfully" "success" 200 JNull))
    (fun error =>
       console_error error ;;
       throw (InternalServerErrorException "Farm could not be deleted.")).

End FarmService.

(** ** Names for what the services say *)

(** The object literals [login] answers and publishes with, and the union of
    the ten public methods of the two services. *)
Definition please_verify : Json :=
  envelope "Please verify your account" "success" 200 JNull.

Definition verification_mail (u : User) (code : string) : string * Json :=
  ("send-verification",
   JObj [ ("to", JStr (email u));
          ("data", JObj [ ("name", JStr (username u)); ("token", JStr code) ]) ]).

Definition session {collab : Collaborators} (u : User) (t : Z) : Json :=
  JObj [ ("access_token",
          JStr (jwt_sign_with
                  (JObj [ ("sub", JStr (user_id u)); ("email", JStr (email u)) ])
                  (config_get "JWT_SECRET") (config_get "JWT_EXPIRE") t)) ].

Inductive Call : Type :=
| Register (dto : CreateUserDto.t)
| Login (dto : LoginDto.t)
| ForgotPassword (dto : ForgotPasswordDto.t)
| VerifyToken (email_ token_ : string)
| ResetPassword (dto : ResetPasswordDto.t)
| CreateFarm (userid : string) (dto : CreateFarmDto.t)
| GetFarms (userid : string)
| GetById (userid farmid : string)
| UpdateFarm (userid farmid : string) (dto : UpdateFarmDto.t)
| DeleteFarm (userid farmid : string).

Definition perform {collab : Collaborators} (c : Call) : M Json :=
  match c with
  | Register dto => AuthService.register dto
  | Login dto => AuthService.login dto
  | ForgotPassword dto => AuthService.forgotPassword dto
  | VerifyToken e t => AuthService.verifyToken e t
  | ResetPassword dto => AuthService.resetPassword dto
  | CreateFarm uid dto => FarmService.createFarm uid dto
  | GetFarms uid => FarmService.getFarms uid
  | GetById uid fid => FarmService.getById uid fid
  | UpdateFarm uid fid dto => FarmService.updateFarm uid fid dto
  | DeleteFarm uid fid => FarmService.deleteFarm uid fid
  end.

(** The same world with every stored reset token replaced by [t]. *)
Definition with_resetTokens (t : option string) (w : World) : World :=
  set_users (map (AuthService.set_resetToken t) (users w)) w.

(** ** A concrete deployment, for running the services *)

Module Demo.

#[export] Instance toy : Collaborators := {
  argon_hash_with salt plain :=
    String.append (Buffer.toString_hex salt) (String.append ":" plain);
  argon_verify_with hash plain :=
    String.eqb (substring 33 (String.length hash - 33) hash) plain;
  jwt_sign_with payload secret expiresIn t :=
    match prop "email" payload with
    | Some (JStr e) => String.append "jwt." e
    | _ => "jwt."
    end;
  config_get key :=
    if String.eqb key "JWT_SECRET" then Some "s3cret"
    else if String.eqb key "JWT_EXPIRE" then Some "1h"
    else None
}.

Definition alice : User :=
  mkUser "u1" "a@x.com" "Alice" "Ames" "alice"
    "000102030405060708090a0b0c0d0e0f:hunter2"
    (Some false) (Some "abc123") (Some "r3s3t0") (Some 0%Z) (Some 0%Z).

Definition bob : User :=
  mkUser "u2" "b@x.com" "Bob" "Barns" "bob"
    "000102030405060708090a0b0c0d0e0f:swordfish"
    (Some true) (Some "0a1b2c") None (Some 0%Z) (Some 0%Z).

Definition north_field : Farm :=
  mkFarm "f1" "u1" "North Field" (mkLocation "3.35" "6.52") 10 "Acres"
    "Planting" (mkSoilInfo (13 # 2)%Q "loam") (Some 0%Z) (Some 0%Z).

Definition dice (n : nat) : byte :=
  match n with
  | 0 => x9f | 1 => x3c | 2 => x07 | 3 => xe1 | 4 => x5a | 5 => xb0
  | _ => x42
  end.

Definition ids (n : nat) : string :=
  match n with
  | 0 => "65f0aa01" | 1 => "65f0aa02" | _ => "65f0aaff"
  end.

Definition world : World :=
  mkWorld [alice; bob] [north_field] [] [] dice 0 (fun _ => false) 0 ids 0 1700000000.

Definition empty_world : World :=
  mkWorld [] [] [] [] dice 0 (fun _ => false) 0 ids 0 1700000000.

Definition dave : User :=
  mkUser "u3" "d@x.com" "Dave" "Dunn" "dave"
    "000102030405060708090a0b0c0d0e0f:letmein"
    (Some false) None None (Some 0%Z) (Some 0%Z).

Definition south_field : Farm :=
  mkFarm "f2" "u2" "South Field" (mkLocation "3.40" "6.60") 4 "Hectares"
    "Harvesting" (mkSoilInfo (6 # 1)%Q "clay") (Some 0%Z) (Some 0%Z).

Definition village : World :=
  mkWorld [alice; bob; dave] [north_field; south_field] [] [] dice 0
    (fun _ => false) 0 ids 0 1700000000.

End Demo.

(** * Properties *)

Arguments Buffer.toString_hex : simpl never.

(** ** Running the monad *)

Lemma bind_ok {A B : Type} (m : M A) (k : A -> M B) (w w' : World) (a : A) :
  m w = (Ok a, w') -> bind m k w = k a w'.
Proof. intros H. unfold bind. now rewrite H. Qed.

Lemma bind_throw {A B : Type} (m : M A) (k : A -> M B) (w w' : World) (e : Exn) :
  m w = (Throw e, w') -> bind m k w = (Throw e, w').
Proof. intros H. unfold bind. now rewrite H. Qed.

Lemma try_catch_ok {A : Type} (body : M A) (h : Exn -> M A) (w w' : World) (a : A) :
  body w = (Ok a, w') -> try_catch body h w = (Ok a, w').
Proof. intros H. unfold try_catch. now rewrite H. Qed.

Lemma try_catch_throw {A : Type} (body : M A) (h : Exn -> M A) (w w' : World) (e : Exn) :
  body w = (Throw e, w') -> try_catch body h w = h e w'.
Proof. intros H. unfold try_catch. now rewrite H. Qed.

(** A handler that always rethrows the same value decides what the caller can
    see, whatever happened inside the [try]. *)
Lemma try_catch_rethrow {A : Type} (body : M A) (e : Exn) (w : World) :
  (exists a w', try_catch body (fun _ => throw e) w = (Ok a, w')
                /\ body w = (Ok a, w'))
  \/ (exists w', try_catch body (fun _ => throw e) w = (Throw e, w')).
Proof.
  unfold try_catch, throw.
  destruct (body w) as [[a | e'] w'].
  - left. now exists a, w'.
  - right. now exists w'.
Qed.

(** The same for the handlers that log first. *)
Lemma try_catch_log_rethrow {A : Type} (body : M A) (e : Exn) (w : World) :
  (exists a w', try_catch body (fun err => console_error err ;; throw e) w = (Ok a, w')
                /\ body w = (Ok a, w'))
  \/ (exists err w',
         body w = (Throw err, w')
         /\ try_catch body (fun err => console_error err ;; throw e) w
            = (Throw e, set_console (console w' ++ [err]) w')).
Proof.
  unfold try_catch.
  destruct (body w) as [[a | err] w'].
  - left. now exists a, w'.
  - right. now exists err, w'.
Qed.

(** So the caller of such a [try] sees no exception but the handler's. *)
Lemma try_catch_log_only {A : Type} (body : M A) (e e' : Exn) (w w' : World) :
  try_catch body (fun err => console_error err ;; throw e) w = (Throw e', w') ->
  e' = e.
Proof.
  intros Hrun.
  destruct (try_catch_log_rethrow body e w)
    as [(a & w1 & Hok & _) | (err & w1 & _ & Hthrow)].
  - rewrite Hok in Hrun. discriminate Hrun.
  - rewrite Hthrow in Hrun. now injection Hrun as <- _.
Qed.

Lemma quiet_succ (f : nat -> bool) (c k : nat) :
  quiet f c (S k) = true <-> f c = false /\ quiet f (S c) k = true.
Proof.
  simpl. rewrite andb_true_iff, negb_true_iff. tauto.
Qed.

Lemma calm_head (k : nat) (w : World) :
  calm (S k) w -> faulty w (clock w) = false.
Proof. unfold calm. rewrite quiet_succ. tauto. Qed.

Lemma calm_tail (k : nat) (w : World) :
  calm (S k) w -> calm k (set_clock (S (clock w)) w).
Proof. unfold calm. rewrite quiet_succ. simpl. tauto. Qed.

Lemma await_call_calm (who : string) (w : World) :
  faulty w (clock w) = false ->
  await_call who w = (Ok tt, set_clock (S (clock w)) w).
Proof. intros H. unfold await_call. now rewrite H. Qed.

Lemma await_call_fault (who : string) (w : World) :
  faulty w (clock w) = true ->
  await_call who w = (Throw (CollaboratorFailure who), set_clock (S (clock w)) w).
Proof. intros H. unfold await_call. now rewrite H. Qed.

(** ** One-time codes *)

Lemma hex_digit_lower (b : byte) :
  Buffer.is_lower_hex (Buffer.hex_digit (Byte.to_N b / 16)) = true
  /\ Buffer.is_lower_hex (Buffer.hex_digit (Byte.to_N b mod 16)) = true.
Proof. destruct b; split; reflexivity. Qed.

Lemma toString_hex_length (buf : list byte) :
  String.length (Buffer.toString_hex buf) = 2 * List.length buf.
Proof.
  induction buf as [| b rest IH]; [reflexivity |].
  unfold Buffer.toString_hex; fold Buffer.toString_hex.
  cbn [String.length List.length]. rewrite IH. lia.
Qed.

Lemma toString_hex_lower (buf : list byte) :
  Buffer.all_chars Buffer.is_lower_hex (Buffer.toString_hex buf) = true.
Proof.
  induction buf as [| b rest IH]; [reflexivity |].
  unfold Buffer.toString_hex; fold Buffer.toString_hex.
  cbn [Buffer.all_chars].
  destruct (hex_digit_lower b) as [Hhi Hlo].
  now rewrite Hhi, Hlo, IH.
Qed.

(** ** The Prisma client *)

Lemma find_update_first {A : Type} (p : A -> bool) (f : A -> A) (l : list A) (a : A) :
  find p l = Some a ->
  p (f a) = true ->
  find p (Prisma.update_first p f l) = Some (f a).
Proof.
  intros Hfind Hkeep.
  induction l as [| x rest IH]; [discriminate |].
  simpl in *. destruct (p x) eqn:Hx.
  - injection Hfind as ->. simpl. now rewrite Hkeep.
  - simpl. rewrite Hx. now apply IH.
Qed.

Lemma user_findUnique_calm (e : string) (w : World) :
  faulty w (clock w) = false ->
  Prisma.user_findUnique e w
  = (Ok (find (Prisma.by_email e) (users w)), set_clock (S (clock w)) w).
Proof.
  intros H. unfold Prisma.user_findUnique.
  now rewrite (bind_ok _ _ _ _ _ (await_call_calm _ w H)).
Qed.

Lemma user_update_calm (p : User -> bool) (d : User -> User) (w : World) (u : User) :
  faulty w (clock w) = false ->
  find p (users w) = Some u ->
  Prisma.user_update p d w
  = (Ok (Prisma.touch_user (now w) (d u)),
     set_users
       (Prisma.update_first p (fun x => Prisma.touch_user (now w) (d x)) (users w))
       (set_clock (S (clock w)) w)).
Proof.
  intros H Hfind. unfold Prisma.user_update.
  rewrite (bind_ok _ _ _ _ _ (await_call_calm _ w H)).
  unfold bind, gets, modify, ret. simpl. now rewrite Hfind.
Qed.

Lemma farm_findMany_calm (uid : string) (w : World) :
  faulty w (clock w) = false ->
  Prisma.farm_findMany uid w
  = (Ok (filter (Prisma.by_farmer uid) (farms w)), set_clock (S (clock w)) w).
Proof.
  intros H. unfold Prisma.farm_findMany.
  now rewrite (bind_ok _ _ _ _ _ (await_call_calm _ w H)).
Qed.

Lemma farm_findUnique_calm (uid fid : string) (w : World) :
  faulty w (clock w) = false ->
  Prisma.farm_findUnique uid fid w
  = (Ok (find (Prisma.by_farmer_and_id uid fid) (farms w)),
     set_clock (S (clock w)) w).
Proof.
  intros H. unfold Prisma.farm_findUnique.
  now rewrite (bind_ok _ _ _ _ _ (await_call_calm _ w H)).
Qed.

Lemma by_email_spec (e : string) (u : User) :
  Prisma.by_email e u = true <-> email u = e.
Proof. unfold Prisma.by_email. apply String.eqb_eq. Qed.

Lemma find_by_email_email (e : string) (l : list User) (u : User) :
  find (Prisma.by_email e) l = Some u -> email u = e.
Proof.
  intros H. apply find_some in H. now apply by_email_spec.
Qed.

(** ** [AuthService.login] *)

Section LoginProperties.

Context {collab : Collaborators}.

Import AuthService.

Lemma randomDigits_run (w : World) :
  randomDigits w
  = (Ok (Buffer.toString_hex (map (entropy w) (seq (cursor w) 3))),
     set_cursor (cursor w + 3) w).
Proof. reflexivity. Qed.

Lemma argon_verify_calm (hash plain : string) (w : World) :
  faulty w (clock w) = false ->
  argon_verify hash plain w
  = (Ok (argon_verify_with hash plain), set_clock (S (clock w)) w).
Proof.
  intros H. unfold argon_verify.
  now rewrite (bind_ok _ _ _ _ _ (await_call_calm _ w H)).
Qed.

Lemma jwt_signAsync_calm (payload : Json) (secret expiresIn : option string) (w : World) :
  faulty w (clock w) = false ->
  jwt_signAsync payload secret expiresIn w
  = (Ok (jwt_sign_with payload secret expiresIn (now w)),
     set_clock (S (clock w)) w).
Proof.
  intros H. unfold jwt_signAsync.
  now rewrite (bind_ok _ _ _ _ _ (await_call_calm _ w H)).
Qed.

Ltac no_reply := let H := fresh "Hrun" in intros H; cbn in H; discriminate H.

Ltac open_login :=
  unfold login, Prisma.user_findUnique, argon_verify, jwt_signAsync,
    randomDigits, Prisma.user_update;
  unfold try_catch, bind, ret, throw, gets, modify, emit, await_call, randomBytes;
  unfold set_users, set_emitted, set_cursor, set_clock.

(** The unverified branch run to its end when the three collaborator calls
    (lookup, password check, update) go through. *)
Lemma login_unverified_run (dto : LoginDto.t) (w : World) (u : User) :
  find (Prisma.by_email (LoginDto.email dto)) (users w) = Some u ->
  verified u = Some false ->
  argon_verify_with (passwordhash u) (LoginDto.password dto) = true ->
  calm 3 w ->
  let code := Buffer.toString_hex (map (entropy w) (seq (cursor w) 3)) in
  login dto w
  = (Ok please_verify,
     set_emitted (emitted w ++ [verification_mail u code])
       (set_users
          (Prisma.update_first (Prisma.by_email (email u))
             (fun x => Prisma.touch_user (now w) (set_token (Some code) x))
             (users w))
          (set_clock (S (S (S (clock w)))) (set_cursor (cursor w + 3) w)))).
Proof.
  intros Hfind Hflag Hpw Hcalm code.
  pose proof (find_by_email_email _ _ _ Hfind) as Hmail.
  pose proof (calm_head _ _ Hcalm) as F1.
  pose proof (calm_tail _ _ Hcalm) as Hcalm2.
  pose proof (calm_head _ _ Hcalm2) as F2.
  pose proof (calm_head _ _ (calm_tail _ _ Hcalm2)) as F3.
  simpl in F2, F3.
  unfold login. apply try_catch_ok.
  rewrite (bind_ok _ _ _ _ _ (user_findUnique_calm _ w F1)), Hfind.
  erewrite bind_ok; [| apply argon_verify_calm; exact F2].
  rewrite Hpw, Hflag.
  cbn [negb truthy opt_json].
  rewrite (bind_ok _ _ _ _ _ (randomDigits_run _)).
  erewrite bind_ok.
  2:{ apply user_update_calm; [exact F3 | rewrite Hmail; exact Hfind]. }
  reflexivity.
Qed.

(** Under any schedule of failures the unverified branch can only answer
    with the request to verify. *)
Lemma login_unverified_only_reply (dto : LoginDto.t) (w w' : World) (u : User) (r : Json) :
  find (Prisma.by_email (LoginDto.email dto)) (users w) = Some u ->
  verified u = Some false ->
  login dto w = (Ok r, w') ->
  r = please_verify.
Proof.
  intros Hfind Hflag.
  pose proof (find_by_email_email _ _ _ Hfind) as Hmail.
  open_login.
  destruct (faulty w (clock w)); [no_reply |].
  cbn. rewrite Hfind. cbn.
  destruct (faulty w (S (clock w))); [no_reply |].
  cbn. destruct (argon_verify_with (passwordhash u) (LoginDto.password dto));
    [| no_reply].
  rewrite Hflag. cbn.
  destruct (faulty w (S (S (clock w)))); [no_reply |].
  cbn. rewrite Hmail, Hfind. cbn.
  intros Hrun. now injection Hrun as <- _.
Qed.

(** No [Ok] answer without a user to read the hash from. *)
Lemma login_unknown_email_no_reply (dto : LoginDto.t) (w w' : World) (r : Json) :
  find (Prisma.by_email (LoginDto.email dto)) (users w) = None ->
  login dto w <> (Ok r, w').
Proof.
  intros Hfind. open_login.
  destruct (faulty w (clock w)); [no_reply |].
  cbn. rewrite Hfind. no_reply.
Qed.

Lemma login_wrong_password_no_reply (dto : LoginDto.t) (w w' : World) (u : User) (r : Json) :
  find (Prisma.by_email (LoginDto.email dto)) (users w) = Some u ->
  argon_verify_with (passwordhash u) (LoginDto.password dto) = false ->
  login dto w <> (Ok r, w').
Proof.
  intros Hfind Hpw. open_login.
  destruct (faulty w (clock w)); [no_reply |].
  cbn. rewrite Hfind. cbn.
  destruct (faulty w (S (clock w))); [no_reply |].
  cbn. rewrite Hpw. no_reply.
Qed.

(** The verified branch leaves both collections and the bus as they were,
    however it ends. *)
Lemma login_verified_frame (dto : LoginDto.t) (w : World) (u : User) :
  find (Prisma.by_email (LoginDto.email dto)) (users w) = Some u ->
  verified u = Some true ->
  let w' := snd (login dto w) in
  users w' = users w /\ farms w' = farms w /\ emitted w' = emitted w.
Proof.
  intros Hfind Hflag. open_login.
  destruct (faulty w (clock w)); [cbn; tauto |].
  cbn. rewrite Hfind. cbn.
  destruct (faulty w (S (clock w))); [cbn; tauto |].
  cbn.
  destruct (argon_verify_with (passwordhash u) (LoginDto.password dto));
    [| cbn; tauto].
  rewrite Hflag. cbn.
  destruct (faulty w (S (S (clock w)))); cbn; tauto.
Qed.

Lemma login_verified_only_reply (dto : LoginDto.t) (w w' : World) (u : User) (r : Json) :
  find (Prisma.by_email (LoginDto.email dto)) (users w) = Some u ->
  verified u = Some true ->
  login dto w = (Ok r, w') ->
  r = session u (now w).
Proof.
  intros Hfind Hflag. open_login.
  destruct (faulty w (clock w)); [no_reply |].
  cbn. rewrite Hfind. cbn.
  destruct (faulty w (S (clock w))); [no_reply |].
  cbn.
  destruct (argon_verify_with (passwordhash u) (LoginDto.password dto));
    [| no_reply].
  rewrite Hflag. cbn.
  destruct (faulty w (S (S (clock w)))); [no_reply |].
  cbn. intros Hrun. now injection Hrun as <- _.
Qed.

Lemma login_verified_run (dto : LoginDto.t) (w : World) (u : User) :
  find (Prisma.by_email (LoginDto.email dto)) (users w) = Some u ->
  verified u = Some true ->
  argon_verify_with (passwordhash u) (LoginDto.password dto) = true ->
  calm 3 w ->
  login dto w = (Ok (session u (now w)), set_clock (S (S (S (clock w)))) w).
Proof.
  intros Hfind Hflag Hpw Hcalm.
  pose proof (calm_head _ _ Hcalm) as F1.
  pose proof (calm_tail _ _ Hcalm) as Hcalm2.
  pose proof (calm_head _ _ Hcalm2) as F2.
  pose proof (calm_head _ _ (calm_tail _ _ Hcalm2)) as F3.
  unfold login. apply try_catch_ok.
  rewrite (bind_ok _ _ _ _ _ (user_findUnique_calm _ w F1)), Hfind.
  erewrite bind_ok; [| apply argon_verify_calm; exact F2].
  rewrite Hpw, Hflag.
  cbn [negb truthy opt_json].
  erewrite bind_ok; [| apply jwt_signAsync_calm; exact F3].
  reflexivity.
Qed.

(** C3: a login with the right password for a user whose [verified] flag
    is false never hands out a session token.  The code it draws is the
    hexadecimal rendering of the next three bytes of entropy: six lowercase
    hexadecimal characters.  Whatever fails along the way, the only answer it
    can give is the request to verify, whose [data] is null and which has no
    [access_token]; and when the three collaborator calls go through it does
    give that answer, having stored the code on the user record and emitted
    one "send-verification" event that carries the code.  The code is fresh:
    the three bytes it was made from are consumed, so the next draw reads the
    bytes after them. *)
Theorem login_unverified_never_issues_session_token
  (dto : LoginDto.t) (w : World) (u : User) :
  find (Prisma.by_email (LoginDto.email dto)) (users w) = Some u ->
  verified u = Some false ->
  argon_verify_with (passwordhash u) (LoginDto.password dto) = true ->
  let code := Buffer.toString_hex (map (entropy w) (seq (cursor w) 3)) in
  (String.length code = 6 /\ Buffer.all_chars Buffer.is_lower_hex code = true)
  /\ (please_verify
       = JObj [ ("message", JStr "Please verify your account");
                ("status", JStr "success");
                ("statusCode", JInt 200);
                ("data", JNull) ]
      /\ has_key "access_token" please_verify = false)
  /\ (forall r w', login dto w = (Ok r, w') -> r = please_verify)
  /\ (calm 3 w ->
      exists w',
        login dto w = (Ok please_verify, w')
        /\ find (Prisma.by_email (LoginDto.email dto)) (users w')
           = Some (Prisma.touch_user (now w) (set_token (Some code) u))
        /\ token (Prisma.touch_user (now w) (set_token (Some code) u)) = Some code
        /\ emitted w' = emitted w ++ [verification_mail u code]
        /\ cursor w' = cursor w + 3).
Proof.
  intros Hfind Hflag Hpw code.
  split; [| split; [| split]].
  - split.
    + unfold code. now rewrite toString_hex_length, length_map, length_seq.
    + apply toString_hex_lower.
  - split; reflexivity.
  - intros r w' Hrun. exact (login_unverified_only_reply _ _ _ _ _ Hfind Hflag Hrun).
  - intros Hcalm.
    eexists. split; [exact (login_unverified_run _ _ _ Hfind Hflag Hpw Hcalm) |].
    pose proof (find_by_email_email _ _ _ Hfind) as Hmail.
    split; [| split; [| split]; reflexivity].
    cbn [users set_emitted set_users]. rewrite Hmail.
    apply (find_update_first (Prisma.by_email (LoginDto.email dto))
             (fun x => Prisma.touch_user (now w) (set_token (Some code) x))
             (users w) u Hfind).
    apply by_email_spec. exact Hmail.
Qed.

(** C4: whatever goes wrong inside [login], the caller sees
    [UnauthorizedException] (HTTP 401) and nothing else: every thrown value
    is that one, an unknown email ends in it, and so does a password that
    does not match the stored hash. *)
Theorem login_failures_surface_as_unauthorized (dto : LoginDto.t) (w : World) :
  let denied := UnauthorizedException "Login failed, try again." in
  (forall e w', login dto w = (Throw e, w') -> e = denied /\ http_status e = 401%Z)
  /\ (find (Prisma.by_email (LoginDto.email dto)) (users w) = None ->
      exists w', login dto w = (Throw denied, w'))
  /\ (forall u,
        find (Prisma.by_email (LoginDto.email dto)) (users w) = Some u ->
        argon_verify_with (passwordhash u) (LoginDto.password dto) = false ->
        exists w', login dto w = (Throw denied, w')).
Proof.
  intros denied.
  split; [| split].
  - intros e w' Hrun. unfold login in Hrun.
    match type of Hrun with
    | try_catch ?body _ _ = _ =>
        destruct (try_catch_rethrow body denied w)
          as [(a & w1 & Hok & _) | (w1 & Hthrow)]
    end.
    + unfold denied in Hok. rewrite Hok in Hrun. discriminate Hrun.
    + unfold denied in Hthrow. rewrite Hthrow in Hrun.
      injection Hrun as <- _. now split.
  - intros Hfind. unfold login.
    match goal with
    | |- exists _, try_catch ?body _ _ = _ =>
        destruct (try_catch_rethrow body denied w)
          as [(a & w1 & Hok & _) | (w1 & Hthrow)]
    end.
    + exfalso. exact (login_unknown_email_no_reply dto w w1 a Hfind Hok).
    + now exists w1.
  - intros u Hfind Hpw. unfold login.
    match goal with
    | |- exists _, try_catch ?body _ _ = _ =>
        destruct (try_catch_rethrow body denied w)
          as [(a & w1 & Hok & _) | (w1 & Hthrow)]
    end.
    + exfalso. exact (login_wrong_password_no_reply dto w w1 u a Hfind Hpw Hok).
    + now exists w1.
Qed.

(** C10: a login with the right password for a verified user writes
    nothing.  However the call ends, the user collection is the one it
    started from (so every field of every record, the user's own included, is
    as before), and so are the farms and the bus; an answer, when there is
    one, is the signed session token and nothing else; and there is one when
    the three collaborator calls (lookup, password check, signing) go
    through. *)
Theorem login_verified_performs_no_write
  (dto : LoginDto.t) (w : World) (u : User) :
  find (Prisma.by_email (LoginDto.email dto)) (users w) = Some u ->
  verified u = Some true ->
  argon_verify_with (passwordhash u) (LoginDto.password dto) = true ->
  (users (snd (login dto w)) = users w
   /\ find (Prisma.by_email (LoginDto.email dto)) (users (snd (login dto w))) = Some u
   /\ farms (snd (login dto w)) = farms w
   /\ emitted (snd (login dto w)) = emitted w)
  /\ (forall r w', login dto w = (Ok r, w') -> r = session u (now w))
  /\ (calm 3 w -> exists w', login dto w = (Ok (session u (now w)), w')).
Proof.
  intros Hfind Hflag Hpw.
  destruct (login_verified_frame dto w u Hfind Hflag) as (Hu & Hf & He).
  split; [| split].
  - rewrite Hu. auto.
  - intros r w' Hrun. exact (login_verified_only_reply _ _ _ _ _ Hfind Hflag Hrun).
  - intros Hcalm. eexists.
    exact (login_verified_run _ _ _ Hfind Hflag Hpw Hcalm).
Qed.

End LoginProperties.

(** ** [AuthService.verifyToken], [forgotPassword], [resetPassword] *)

Section AuthProperties.

Context {collab : Collaborators}.

Import AuthService.

Lemma argon_hash_calm (plain : string) (w : World) :
  faulty w (clock w) = false ->
  argon_hash plain w
  = (Ok (argon_hash_with (map (entropy w) (seq (cursor w) 16)) plain),
     set_clock (S (clock w)) (set_cursor (cursor w + 16) w)).
Proof.
  intros H. unfold argon_hash, bind, randomBytes, await_call, ret.
  cbn [faulty clock set_cursor]. now rewrite H.
Qed.

(** *** verifyToken *)

(** The caller of [verifyToken] never sees anything but the handler's own
    exception. *)
Lemma verifyToken_throws_only_internal (e t : string) (w w' : World) (err : Exn) :
  verifyToken e t w = (Throw err, w') ->
  err = InternalServerErrorException "Token could not be verified.".
Proof. unfold verifyToken. apply try_catch_log_only. Qed.

Lemma verifyToken_unknown_email (e t : string) (w : World) :
  faulty w (clock w) = false ->
  find (Prisma.by_email e) (users w) = None ->
  verifyToken e t w
  = (Throw (InternalServerErrorException "Token could not be verified."),
     set_console (console w ++ [NotFoundException "User could not be found."])
       (set_clock (S (clock w)) w)).
Proof.
  intros F Hfind. unfold verifyToken.
  erewrite try_catch_throw.
  2:{ now rewrite (bind_ok _ _ _ _ _ (user_findUnique_calm _ w F)), Hfind. }
  reflexivity.
Qed.

Lemma verifyToken_mismatch (e t : string) (w : World) (u : User) :
  faulty w (clock w) = false ->
  find (Prisma.by_email e) (users w) = Some u ->
  strict_eq t (token u) = false ->
  verifyToken e t w
  = (Throw (InternalServerErrorException "Token could not be verified."),
     set_console (console w ++ [BadRequestException "Invalid OTP"])
       (set_clock (S (clock w)) w)).
Proof.
  intros F Hfind Hneq. unfold verifyToken.
  erewrite try_catch_throw.
  2:{ now rewrite (bind_ok _ _ _ _ _ (user_findUnique_calm _ w F)), Hfind, Hneq. }
  reflexivity.
Qed.

Lemma verifyToken_match (e t : string) (w : World) (u : User) :
  calm 2 w ->
  find (Prisma.by_email e) (users w) = Some u ->
  strict_eq t (token u) = true ->
  verifyToken e t w
  = (Ok (envelope "Valid Token" "success" 200 JNull),
     set_users
       (Prisma.update_first (Prisma.by_email e)
          (fun x => Prisma.touch_user (now w) (set_verified (Some true) x))
          (users w))
       (set_clock (S (S (clock w))) w)).
Proof.
  intros Hcalm Hfind Heq.
  pose proof (calm_head _ _ Hcalm) as F1.
  pose proof (calm_head _ _ (calm_tail _ _ Hcalm)) as F2.
  unfold verifyToken. apply try_catch_ok.
  rewrite (bind_ok _ _ _ _ _ (user_findUnique_calm _ w F1)), Hfind, Heq.
  cbn [negb].
  erewrite bind_ok; [| apply user_update_calm; [exact F2 | exact Hfind]].
  reflexivity.
Qed.

(** *** forgotPassword *)

Lemma getUserByEmail_throws_only_internal (e : string) (w w' : World) (err : Exn) :
  getUserByEmail e w = (Throw err, w') ->
  err = InternalServerErrorException "Please try again.".
Proof.
  intros Hrun. unfold getUserByEmail in Hrun.
  match type of Hrun with
  | try_catch ?body (fun _ => throw ?x) _ = _ =>
      destruct (try_catch_rethrow body x w) as [(a & w1 & Hok & _) | (w1 & Hthrow)]
  end.
  - rewrite Hok in Hrun. discriminate Hrun.
  - rewrite Hthrow in Hrun. now injection Hrun as <- _.
Qed.

Lemma getUserByEmail_unknown (e : string) (w : World) :
  faulty w (clock w) = false ->
  find (Prisma.by_email e) (users w) = None ->
  getUserByEmail e w
  = (Throw (InternalServerErrorException "Please try again."),
     set_clock (S (clock w)) w).
Proof.
  intros F Hfind. unfold getUserByEmail.
  erewrite try_catch_throw.
  2:{ now rewrite (bind_ok _ _ _ _ _ (user_findUnique_calm _ w F)), Hfind. }
  reflexivity.
Qed.

Lemma getUserByEmail_known (e : string) (w : World) (u : User) :
  faulty w (clock w) = false ->
  find (Prisma.by_email e) (users w) = Some u ->
  getUserByEmail e w = (Ok u, set_clock (S (clock w)) w).
Proof.
  intros F Hfind. unfold getUserByEmail. apply try_catch_ok.
  now rewrite (bind_ok _ _ _ _ _ (user_findUnique_calm _ w F)), Hfind.
Qed.

Lemma forgotPassword_throws_only_internal
  (dto : ForgotPasswordDto.t) (w w' : World) (err : Exn) :
  forgotPassword dto w = (Throw err, w') ->
  err = InternalServerErrorException "Retrieving password failed.".
Proof. unfold forgotPassword. apply try_catch_log_only. Qed.

Lemma forgotPassword_unknown_email (dto : ForgotPasswordDto.t) (w : World) :
  faulty w (clock w) = false ->
  find (Prisma.by_email (ForgotPasswordDto.email dto)) (users w) = None ->
  forgotPassword dto w
  = (Throw (InternalServerErrorException "Retrieving password failed."),
     set_console (console w ++ [InternalServerErrorException "Please try again."])
       (set_clock (S (clock w)) w)).
Proof.
  intros F Hfind. unfold forgotPassword.
  erewrite try_catch_throw.
  2:{ now rewrite (bind_throw _ _ _ _ _ (getUserByEmail_unknown _ w F Hfind)). }
  reflexivity.
Qed.

Lemma forgotPassword_known_email (dto : ForgotPasswordDto.t) (w : World) (u : User) :
  calm 2 w ->
  find (Prisma.by_email (ForgotPasswordDto.email dto)) (users w) = Some u ->
  let code := Buffer.toString_hex (map (entropy w) (seq (cursor w) 3)) in
  forgotPassword dto w
  = (Ok (envelope "Reset token has been sent to your email" "success" 200 JNull),
     set_emitted
       (emitted w ++ [("send-reset-token", JObj [ ("resetToken", JStr code) ])])
       (set_users
          (Prisma.update_first (Prisma.by_email (email u))
             (fun x => Prisma.touch_user (now w) (set_resetToken (Some code) x))
             (users w))
          (set_clock (S (S (clock w))) (set_cursor (cursor w + 3) w)))).
Proof.
  intros Hcalm Hfind code.
  pose proof (find_by_email_email _ _ _ Hfind) as Hmail.
  pose proof (calm_head _ _ Hcalm) as F1.
  pose proof (calm_head _ _ (calm_tail _ _ Hcalm)) as F2.
  unfold forgotPassword. apply try_catch_ok.
  rewrite (bind_ok _ _ _ _ _ (getUserByEmail_known _ w u F1 Hfind)).
  rewrite (bind_ok _ _ _ _ _ (randomDigits_run _)).
  erewrite bind_ok.
  2:{ apply user_update_calm; [exact F2 | rewrite Hmail; exact Hfind]. }
  reflexivity.
Qed.

(** *** resetPassword *)

Lemma resetPassword_run (dto : ResetPasswordDto.t) (w : World) (u : User) :
  calm 2 w ->
  find (Prisma.by_email (ResetPasswordDto.email dto)) (users w) = Some u ->
  let hash :=
    argon_hash_with (map (entropy w) (seq (cursor w) 16))
      (ResetPasswordDto.newPassword dto) in
  resetPassword dto w
  = (Ok (envelope "Password Reset successfully." "success" 200 JNull),
     set_users
       (Prisma.update_first (Prisma.by_email (ResetPasswordDto.email dto))
          (fun x => Prisma.touch_user (now w) (set_passwordhash hash x))
          (users w))
       (set_clock (S (S (clock w))) (set_cursor (cursor w + 16) w))).
Proof.
  intros Hcalm Hfind hash.
  pose proof (calm_head _ _ Hcalm) as F1.
  pose proof (calm_head _ _ (calm_tail _ _ Hcalm)) as F2.
  unfold resetPassword. apply try_catch_ok.
  rewrite (bind_ok _ _ _ _ _ (argon_hash_calm _ w F1)).
  erewrite bind_ok; [| apply user_update_calm; [exact F2 | exact Hfind]].
  reflexivity.
Qed.

End AuthProperties.

(** ** [FarmService] *)

Section FarmProperties.

Import FarmService.

Lemma by_farmer_and_id_spec (uid fid : string) (f : Farm) :
  Prisma.by_farmer_and_id uid fid f = true <-> farmerId f = uid /\ farm_id f = fid.
Proof.
  unfold Prisma.by_farmer_and_id, Prisma.by_farmer, Prisma.by_farm_id.
  now rewrite andb_true_iff, !String.eqb_eq.
Qed.

Lemma find_owned_farm_iff (uid fid : string) (fs : list Farm) :
  (exists f, find (Prisma.by_farmer_and_id uid fid) fs = Some f)
  <-> (exists f, In f fs /\ farm_id f = fid /\ farmerId f = uid).
Proof.
  split.
  - intros [f Hf]. apply find_some in Hf. destruct Hf as [Hin Hp].
    apply by_farmer_and_id_spec in Hp. exists f. tauto.
  - intros (f & Hin & Hid & Hown).
    destruct (find (Prisma.by_farmer_and_id uid fid) fs) as [g |] eqn:Hfind.
    + now exists g.
    + exfalso. pose proof (find_none _ _ Hfind f Hin) as Hno.
      assert (Hyes : Prisma.by_farmer_and_id uid fid f = true)
        by (apply by_farmer_and_id_spec; tauto).
      congruence.
Qed.

Lemma getById_found (uid fid : string) (w : World) (f : Farm) :
  faulty w (clock w) = false ->
  find (Prisma.by_farmer_and_id uid fid) (farms w) = Some f ->
  getById uid fid w
  = (Ok (envelope "Farm retrieved successfully" "success" 200 (farm_json f)),
     set_clock (S (clock w)) w).
Proof.
  intros F Hfind. unfold getById. apply try_catch_ok.
  now rewrite (bind_ok _ _ _ _ _ (farm_findUnique_calm _ _ w F)), Hfind.
Qed.

Lemma getById_missing (uid fid : string) (w : World) :
  faulty w (clock w) = false ->
  find (Prisma.by_farmer_and_id uid fid) (farms w) = None ->
  getById uid fid w
  = (Throw (InternalServerErrorException "Farm could not be retrieved"),
     set_console (console w ++ [NotFoundException "Farm not found."])
       (set_clock (S (clock w)) w)).
Proof.
  intros F Hfind. unfold getById.
  erewrite try_catch_throw.
  2:{ now rewrite (bind_ok _ _ _ _ _ (farm_findUnique_calm _ _ w F)), Hfind. }
  reflexivity.
Qed.

Lemma getById_throws_only_internal (uid fid : string) (w w' : World) (err : Exn) :
  getById uid fid w = (Throw err, w') ->
  err = InternalServerErrorException "Farm could not be retrieved".
Proof. unfold getById. apply try_catch_log_only. Qed.

(** With the database answering, [getById] replies exactly when the caller
    owns a farm with that id. *)
Lemma getById_replies_iff_owned (uid fid : string) (w : World) :
  faulty w (clock w) = false ->
  (exists r w', getById uid fid w = (Ok r, w'))
  <-> (exists f, In f (farms w) /\ farm_id f = fid /\ farmerId f = uid).
Proof.
  intros F. rewrite <- find_owned_farm_iff. split.
  - intros (r & w' & Hrun).
    destruct (find (Prisma.by_farmer_and_id uid fid) (farms w)) as [f |] eqn:Hfind.
    + now exists f.
    + rewrite (getById_missing _ _ _ F Hfind) in Hrun. discriminate Hrun.
  - intros [f Hfind]. rewrite (getById_found _ _ _ _ F Hfind). eauto.
Qed.

Lemma getFarms_calm (uid : string) (w : World) :
  faulty w (clock w) = false ->
  getFarms uid w
  = (Ok (envelope "Farms retrieved." "success" 200
           (JArr (map farm_json (filter (Prisma.by_farmer uid) (farms w))))),
     set_clock (S (clock w)) w).
Proof.
  intros F. unfold getFarms. apply try_catch_ok.
  now rewrite (bind_ok _ _ _ _ _ (farm_findMany_calm _ w F)).
Qed.

Lemma getFarms_fault (uid : string) (w : World) :
  faulty w (clock w) = true ->
  getFarms uid w
  = (Throw (InternalServerErrorException "Farms could not be retrieved."),
     set_console (console w ++ [CollaboratorFailure "prisma.farm.findMany"])
       (set_clock (S (clock w)) w)).
Proof.
  intros F. unfold getFarms.
  erewrite try_catch_throw.
  2:{ unfold Prisma.farm_findMany.
      erewrite bind_throw; [| erewrite bind_throw; [| apply await_call_fault; exact F]];
        reflexivity. }
  reflexivity.
Qed.

(** C9: listing farms always succeeds when the database answers: the reply
    is the envelope with status code 200 whose [data] is the array of the
    farms whose [farmerId] is the caller, the empty array included.  The
    array is truthy whatever its length, so the branch that throws
    [NotFoundException "No farms found."] is never taken: on every run, also
    one where the database fails, that exception is neither thrown to the
    caller nor written to the console. *)
Theorem getFarms_always_lists (userid : string) (w : World) :
  let owned := filter (Prisma.by_farmer userid) (farms w) in
  let unreachable := NotFoundException "No farms found." in
  (faulty w (clock w) = false ->
   exists w',
     getFarms userid w
     = (Ok (JObj [ ("message", JStr "Farms retrieved.");
                   ("status", JStr "success");
                   ("statusCode", JInt 200);
                   ("data", JArr (map farm_json owned)) ]), w')
     /\ console w' = console w)
  /\ (truthy (JArr (map farm_json owned)) = true /\ truthy (JArr []) = true)
  /\ fst (getFarms userid w) <> Throw unreachable
  /\ (In unreachable (console (snd (getFarms userid w))) ->
      In unreachable (console w)).
Proof.
  intros owned unreachable.
  split; [| split; [| split]].
  - intros F. rewrite (getFarms_calm _ _ F). eexists. split; reflexivity.
  - split; reflexivity.
  - destruct (faulty w (clock w)) eqn:F.
    + rewrite (getFarms_fault _ _ F). discriminate.
    + rewrite (getFarms_calm _ _ F). discriminate.
  - destruct (faulty w (clock w)) eqn:F.
    + rewrite (getFarms_fault _ _ F). cbn [snd console set_console set_clock].
      intros Hin. apply in_app_or in Hin. destruct Hin as [Hin | [Heq | []]].
      * exact Hin.
      * discriminate Heq.
    + rewrite (getFarms_calm _ _ F). intros Hin. exact Hin.
Qed.

End FarmProperties.

(** ** What a reply can carry *)

Section ReplyProperties.

Context {collab : Collaborators}.

Lemma has_key_array (k : string) (xs : list Json) :
  has_key k (JArr xs) = existsb (has_key k) xs.
Proof.
  induction xs as [| x rest IH]; [reflexivity |].
  cbn [existsb]. rewrite <- IH. reflexivity.
Qed.

Lemma has_key_envelope (message status_ : string) (code : Z) (data : Json) :
  has_key "passwordhash" (envelope message status_ code data)
  = has_key "passwordhash" data.
Proof. cbn. apply orb_false_r. Qed.

Lemma farm_json_hides_hash (f : Farm) : has_key "passwordhash" (farm_json f) = false.
Proof.
  unfold farm_json.
  destruct (farm_created_at f), (farm_updated_at f); reflexivity.
Qed.

Lemma farm_list_hides_hash (fs : list Farm) :
  has_key "passwordhash" (JArr (map farm_json fs)) = false.
Proof.
  rewrite has_key_array.
  induction fs as [| f rest IH]; [reflexivity |].
  cbn [map existsb]. now rewrite farm_json_hides_hash, IH.
Qed.

Lemma public_fields (u : User) :
  select ["email"; "username"] (user_fields u)
  = JObj [ ("email", JStr (email u)); ("username", JStr (username u)) ].
Proof. reflexivity. Qed.

(** A record handed back by [prisma.user.create] carries the email and the
    username it was asked to store. *)
Lemma user_create_echo
  (e uname fname lname hash : string) (b : bool) (w w' : World) (u : User) :
  Prisma.user_create e uname fname lname hash b w = (Ok u, w') ->
  email u = e /\ username u = uname.
Proof.
  unfold Prisma.user_create, Prisma.mint_id, bind, await_call, gets, modify, ret, throw.
  destruct (faulty w (clock w)); [intros H; discriminate H |].
  cbn.
  destruct (existsb (Prisma.by_email e) (users w)
            || existsb (Prisma.by_username uname) (users w));
    [intros H; discriminate H |].
  cbn. intros H. injection H as <- _. now split.
Qed.

Ltac body_of Hrun a :=
  match type of Hrun with
  | try_catch ?body (fun err => console_error err ;; throw ?x) ?w = _ =>
      let w1 := fresh "w1" in
      let err := fresh "err" in
      let Hok := fresh "Hok" in
      let Hbody := fresh "Hbody" in
      let Hthrow := fresh "Hthrow" in
      destruct (try_catch_log_rethrow body x w)
        as [(a & w1 & Hok & Hbody) | (err & w1 & _ & Hthrow)];
      [ rewrite Hok in Hrun; injection Hrun as <- <-
      | rewrite Hthrow in Hrun; discriminate Hrun ]
  end.

Ltac peel Hbody x w1 H :=
  unfold bind at 1 in Hbody;
  match type of Hbody with
  | context [match ?m with _ => _ end] =>
      destruct m as [[x | ?] w1] eqn:H; [| discriminate Hbody]
  end.

Lemma register_reply (dto : CreateUserDto.t) (w w' : World) (r : Json) :
  AuthService.register dto w = (Ok r, w') ->
  r = envelope "User registered." "Success" 201
        (JObj [ ("email", JStr (CreateUserDto.email dto));
                ("username", JStr (CreateUserDto.username dto)) ]).
Proof.
  intros Hrun. unfold AuthService.register in Hrun. body_of Hrun a.
  peel Hbody h w2 Hhash. peel Hbody u w3 Hcreate.
  apply user_create_echo in Hcreate. destruct Hcreate as [He Hu].
  rewrite public_fields, He, Hu in Hbody.
  cbn in Hbody. now injection Hbody as <- _.
Qed.

Lemma null_reply_forgotPassword (dto : ForgotPasswordDto.t) (w w' : World) (r : Json) :
  AuthService.forgotPassword dto w = (Ok r, w') ->
  r = envelope "Reset token has been sent to your email" "success" 200 JNull.
Proof.
  intros Hrun. unfold AuthService.forgotPassword in Hrun. body_of Hrun a.
  peel Hbody u w2 Huser. peel Hbody c w3 Hcode. peel Hbody u' w4 Hupd.
  cbn in Hbody. now injection Hbody as <- _.
Qed.

Lemma null_reply_verifyToken (e t : string) (w w' : World) (r : Json) :
  AuthService.verifyToken e t w = (Ok r, w') ->
  r = envelope "Valid Token" "success" 200 JNull.
Proof.
  intros Hrun. unfold AuthService.verifyToken in Hrun. body_of Hrun a.
  peel Hbody found w2 Hfind.
  destruct found as [u |]; [| discriminate Hbody].
  destruct (negb (AuthService.strict_eq t (token u))); [discriminate Hbody |].
  peel Hbody u' w3 Hupd.
  cbn in Hbody. now injection Hbody as <- _.
Qed.

Lemma null_reply_resetPassword (dto : ResetPasswordDto.t) (w w' : World) (r : Json) :
  AuthService.resetPassword dto w = (Ok r, w') ->
  r = envelope "Password Reset successfully." "success" 200 JNull.
Proof.
  intros Hrun. unfold AuthService.resetPassword in Hrun. body_of Hrun a.
  peel Hbody h w2 Hhash. peel Hbody u w3 Hupd.
  cbn in Hbody. now injection Hbody as <- _.
Qed.

Lemma null_reply_deleteFarm (uid fid : string) (w w' : World) (r : Json) :
  FarmService.deleteFarm uid fid w = (Ok r, w') ->
  r = envelope "Farm deleted successfully" "success" 200 JNull.
Proof.
  intros Hrun. unfold FarmService.deleteFarm in Hrun. body_of Hrun a.
  peel Hbody f w2 Hdel.
  cbn in Hbody. now injection Hbody as <- _.
Qed.

Lemma farm_reply_createFarm (uid : string) (dto : CreateFarmDto.t) (w w' : World) (r : Json) :
  FarmService.createFarm uid dto w = (Ok r, w') ->
  exists f, r = envelope "Farm created" "success" 201 (farm_json f).
Proof.
  intros Hrun. unfold FarmService.createFarm in Hrun. body_of Hrun a.
  peel Hbody f w2 Hcreate.
  cbn [truthy farm_json negb] in Hbody.
  peel Hbody u w3 Hlink.
  cbn in Hbody. injection Hbody as <- _. now exists f.
Qed.

Lemma farm_reply_getById (uid fid : string) (w w' : World) (r : Json) :
  FarmService.getById uid fid w = (Ok r, w') ->
  exists f, r = envelope "Farm retrieved successfully" "success" 200 (farm_json f).
Proof.
  intros Hrun. unfold FarmService.getById in Hrun. body_of Hrun a.
  peel Hbody found w2 Hfind.
  destruct found as [f |]; [| discriminate Hbody].
  cbn in Hbody. injection Hbody as <- _. now exists f.
Qed.

Lemma farm_reply_updateFarm
  (uid fid : string) (dto : UpdateFarmDto.t) (w w' : World) (r : Json) :
  FarmService.updateFarm uid fid dto w = (Ok r, w') ->
  exists f, r = envelope "Farm updated successfully" "success" 200 (farm_json f).
Proof.
  intros Hrun. unfold FarmService.updateFarm in Hrun. body_of Hrun a.
  peel Hbody f w2 Hupd.
  cbn in Hbody. injection Hbody as <- _. now exists f.
Qed.

Lemma farms_reply_getFarms (uid : string) (w w' : World) (r : Json) :
  FarmService.getFarms uid w = (Ok r, w') ->
  exists fs, r = envelope "Farms retrieved." "success" 200 (JArr (map farm_json fs)).
Proof.
  intros Hrun. unfold FarmService.getFarms in Hrun. body_of Hrun a.
  peel Hbody fs w2 Hfind.
  cbn in Hbody. injection Hbody as <- _. now exists fs.
Qed.

Lemma login_reply (dto : LoginDto.t) (w w' : World) (r : Json) :
  AuthService.login dto w = (Ok r, w') ->
  r = please_verify \/ exists signed, r = JObj [ ("access_token", JStr signed) ].
Proof.
  intros Hrun. unfold AuthService.login in Hrun.
  match type of Hrun with
  | try_catch ?body (fun _ => throw ?x) _ = _ =>
      destruct (try_catch_rethrow body x w) as [(a & w1 & Hok & Hbody) | (w1 & Hthrow)]
  end.
  2:{ rewrite Hthrow in Hrun. discriminate Hrun. }
  rewrite Hok in Hrun. injection Hrun as <- <-.
  peel Hbody found w2 Hfind.
  destruct found as [u |]; [| discriminate Hbody].
  peel Hbody matches w3 Hpw.
  destruct (negb matches); [discriminate Hbody |].
  destruct (negb (truthy (opt_json JBool (verified u)))).
  - peel Hbody c w4 Hcode. peel Hbody u' w5 Hupd.
    cbn in Hbody. injection Hbody as <- _. now left.
  - peel Hbody signed w4 Hsign.
    cbn in Hbody. injection Hbody as <- _. right. now exists signed.
Qed.

(** C7: no reply of either service carries the password hash.  For every
    call and every world, a reply (when there is one) has no [passwordhash]
    key at any depth; [register] answers with the fields [email] and
    [username] of the new user and nothing else of it, [login] with the
    request to verify (whose [data] is null) or with an object holding an
    [access_token] only, and every other operation with null, a farm, or a
    list of farms as [data]. *)
Theorem replies_never_expose_passwordhash (c : Call) (w w' : World) (r : Json) :
  perform c w = (Ok r, w') ->
  has_key "passwordhash" r = false
  /\ match c with
     | Register dto =>
         prop "data" r
         = Some (JObj [ ("email", JStr (CreateUserDto.email dto));
                        ("username", JStr (CreateUserDto.username dto)) ])
     | Login _ =>
         (r = please_verify /\ prop "data" r = Some JNull)
         \/ exists signed, r = JObj [ ("access_token", JStr signed) ]
     | ForgotPassword _ | VerifyToken _ _ | ResetPassword _ | DeleteFarm _ _ =>
         prop "data" r = Some JNull
     | CreateFarm _ _ | GetById _ _ | UpdateFarm _ _ _ =>
         exists f, prop "data" r = Some (farm_json f)
     | GetFarms _ =>
         exists fs, prop "data" r = Some (JArr (map farm_json fs))
     end.
Proof.
  intros Hrun. destruct c; cbn [perform] in Hrun.
  - apply register_reply in Hrun. subst r. split; reflexivity.
  - apply login_reply in Hrun. destruct Hrun as [-> | [signed ->]].
    + split; [reflexivity | left; split; reflexivity].
    + split; [reflexivity | right; now exists signed].
  - apply null_reply_forgotPassword in Hrun. subst r. split; reflexivity.
  - apply null_reply_verifyToken in Hrun. subst r. split; reflexivity.
  - apply null_reply_resetPassword in Hrun. subst r. split; reflexivity.
  - apply farm_reply_createFarm in Hrun. destruct Hrun as [f ->].
    split; [| now exists f].
    rewrite has_key_envelope. apply farm_json_hides_hash.
  - apply farms_reply_getFarms in Hrun. destruct Hrun as [fs ->].
    split; [| now exists fs].
    rewrite has_key_envelope. apply farm_list_hides_hash.
  - apply farm_reply_getById in Hrun. destruct Hrun as [f ->].
    split; [| now exists f].
    rewrite has_key_envelope. apply farm_json_hides_hash.
  - apply farm_reply_updateFarm in Hrun. destruct Hrun as [f ->].
    split; [| now exists f].
    rewrite has_key_envelope. apply farm_json_hides_hash.
  - apply null_reply_deleteFarm in Hrun. subst r. split; reflexivity.
Qed.

End ReplyProperties.

(** ** [resetPassword] and the stored reset token *)

Section ResetProperties.

Context {collab : Collaborators}.

Import AuthService.

Lemma find_map_same_key {A : Type} (p : A -> bool) (h : A -> A) (l : list A) :
  (forall x, p (h x) = p x) ->
  find p (map h l) = option_map h (find p l).
Proof.
  intros Hkey. induction l as [| x rest IH]; [reflexivity |].
  cbn [map find]. rewrite Hkey. destruct (p x); [reflexivity | exact IH].
Qed.

Lemma update_first_map {A : Type} (p : A -> bool) (g h : A -> A) (l : list A) :
  (forall x, p (h x) = p x) ->
  (forall x, g (h x) = h (g x)) ->
  Prisma.update_first p g (map h l) = map h (Prisma.update_first p g l).
Proof.
  intros Hkey Hcomm. induction l as [| x rest IH]; [reflexivity |].
  cbn [map Prisma.update_first]. rewrite Hkey.
  destruct (p x); cbn [map]; [now rewrite Hcomm | now rewrite IH].
Qed.

(** C6: for an existing user, [resetPassword] hashes the new password and
    writes the hash over the stored one, answering with the success
    envelope; nothing stands between the call and the write.  The record it
    leaves has the new hash and the reset token it had before.  The stored
    reset token plays no part: with every stored reset token replaced by an
    arbitrary value the call answers the same and writes the same hash, and
    the replaced tokens are still there afterwards. *)
Theorem resetPassword_overwrites_without_token_check
  (dto : ResetPasswordDto.t) (w : World) (u : User) :
  calm 2 w ->
  find (Prisma.by_email (ResetPasswordDto.email dto)) (users w) = Some u ->
  let hash :=
    argon_hash_with (map (entropy w) (seq (cursor w) 16))
      (ResetPasswordDto.newPassword dto) in
  let u' := Prisma.touch_user (now w) (set_passwordhash hash u) in
  let done := envelope "Password Reset successfully." "success" 200 JNull in
  (exists w',
      resetPassword dto w = (Ok done, w')
      /\ find (Prisma.by_email (ResetPasswordDto.email dto)) (users w') = Some u')
  /\ (passwordhash u' = hash /\ resetToken u' = resetToken u)
  /\ (forall t : option string,
        exists w',
          resetPassword dto (with_resetTokens t w) = (Ok done, w')
          /\ find (Prisma.by_email (ResetPasswordDto.email dto)) (users w')
             = Some (set_resetToken t u')
          /\ users w' = map (set_resetToken t) (users (snd (resetPassword dto w)))).
Proof.
  intros Hcalm Hfind hash u' done.
  pose proof (resetPassword_run dto w u Hcalm Hfind) as Hrun.
  cbv zeta in Hrun. fold hash in Hrun.
  split; [| split].
  - eexists. split; [exact Hrun |].
    cbn [users set_users].
    apply (find_update_first _ (fun x => Prisma.touch_user (now w) (set_passwordhash hash x))
             _ _ Hfind).
    exact (proj2 (find_some _ _ Hfind)).
  - split; reflexivity.
  - intros t.
    assert (Hfind' :
      find (Prisma.by_email (ResetPasswordDto.email dto))
        (users (with_resetTokens t w)) = Some (set_resetToken t u)).
    { cbn [users with_resetTokens set_users].
      rewrite find_map_same_key by reflexivity. now rewrite Hfind. }
    pose proof (resetPassword_run dto (with_resetTokens t w) (set_resetToken t u)
                  Hcalm Hfind') as Hrun'.
    cbv zeta in Hrun'.
    eexists. split; [exact Hrun' |]. split.
    + cbn [users set_users].
      apply (find_update_first _
               (fun x => Prisma.touch_user (now w) (set_passwordhash hash x))
               _ _ Hfind').
      exact (proj2 (find_some _ _ Hfind)).
    + rewrite Hrun. cbn [snd users set_users with_resetTokens].
      apply update_first_map; reflexivity.
Qed.

End ResetProperties.

(** ** The services run on a concrete deployment *)

Section Runs.

Import AuthService FarmService.

Local Existing Instance Demo.toy.

(** C1: [verifyToken] throws [NotFoundException] for an unknown email and
    [BadRequestException] for a wrong code, but both are thrown inside its own
    [try] and the handler replaces them: the caller gets
    [InternalServerErrorException] (HTTP 500) in both cases, and the
    exception the claim names only reaches the console.  Here for
    "nobody@x.com", which no user has, and for "a@x.com" with a code that
    differs from the stored "abc123" in its last character; in the second run
    the user collection is left as it was. *)
Theorem verifyToken_surfaces_internal_error :
  let missing := verifyToken "nobody@x.com" "abc123" Demo.world in
  let wrong := verifyToken "a@x.com" "abc124" Demo.world in
  let surfaced := InternalServerErrorException "Token could not be verified." in
  find (Prisma.by_email "nobody@x.com") (users Demo.world) = None
  /\ fst missing = Throw surfaced
  /\ console (snd missing) = [NotFoundException "User could not be found."]
  /\ find (Prisma.by_email "a@x.com") (users Demo.world) = Some Demo.alice
  /\ token Demo.alice = Some "abc123"
  /\ fst wrong = Throw surfaced
  /\ console (snd wrong) = [BadRequestException "Invalid OTP"]
  /\ users (snd wrong) = users Demo.world
  /\ http_status surfaced = 500%Z.
Proof. cbv zeta. repeat split; reflexivity. Qed.

(** C2: [getById] throws [NotFoundException] when the caller owns no farm
    with that id, but inside its own [try]: the caller gets
    [InternalServerErrorException] (HTTP 500).  Here for farm "f1", owned by
    "u1", asked for by "u2", and for an id no farm has; the two runs are the
    same to the caller. *)
Theorem getById_surfaces_internal_error :
  let foreign := getById "u2" "f1" Demo.world in
  let absent := getById "u2" "f0" Demo.world in
  let surfaced := InternalServerErrorException "Farm could not be retrieved" in
  (farm_id Demo.north_field = "f1" /\ farmerId Demo.north_field = "u1")
  /\ fst foreign = Throw surfaced
  /\ console (snd foreign) = [NotFoundException "Farm not found."]
  /\ fst absent = Throw surfaced
  /\ console (snd absent) = [NotFoundException "Farm not found."]
  /\ http_status surfaced = 500%Z
  /\ fst (getById "u1" "f1" Demo.world)
     = Ok (envelope "Farm retrieved successfully" "success" 200
             (farm_json Demo.north_field)).
Proof. cbv zeta. repeat split; reflexivity. Qed.

(** C5: for an email no user has, [getUserByEmail] throws
    [NotFoundException] inside its own [try] and rethrows
    [InternalServerErrorException "Please try again."]; [forgotPassword]
    catches that, logs it and throws
    [InternalServerErrorException "Retrieving password failed."] (HTTP 500).
    No token is stored and no event is emitted. *)
Theorem forgotPassword_surfaces_internal_error :
  let run := forgotPassword (ForgotPasswordDto.make "nobody@x.com") Demo.world in
  let surfaced := InternalServerErrorException "Retrieving password failed." in
  find (Prisma.by_email "nobody@x.com") (users Demo.world) = None
  /\ fst run = Throw surfaced
  /\ http_status surfaced = 500%Z
  /\ console (snd run) = [InternalServerErrorException "Please try again."]
  /\ users (snd run) = users Demo.world
  /\ emitted (snd run) = [].
Proof. cbv zeta. repeat split; reflexivity. Qed.

(** C8: the "send-reset-token" event [forgotPassword] emits carries the
    token and nothing else: no recipient and no [data] object.  The other two
    events, emitted by [register] and [login], do carry [to] and [data]. *)
Theorem send_reset_token_event_has_no_recipient :
  let forgot := forgotPassword (ForgotPasswordDto.make "a@x.com") Demo.world in
  let payload := JObj [ ("resetToken", JStr "9f3c07") ] in
  let registered :=
    register (CreateUserDto.make "c@x.com" "carol" "Carol" "Cole" "pw") Demo.world in
  let logged := login (LoginDto.make "a@x.com" "hunter2") Demo.world in
  (fst forgot
   = Ok (envelope "Reset token has been sent to your email" "success" 200 JNull)
   /\ emitted (snd forgot) = [ ("send-reset-token", payload) ]
   /\ prop "to" payload = None
   /\ prop "data" payload = None
   /\ has_key "to" payload = false)
  /\ emitted (snd registered)
     = [ ("welcome-email",
          JObj [ ("to", JStr "c@x.com");
                 ("data", JObj [ ("name", JStr "carol") ]) ]) ]
  /\ emitted (snd logged)
     = [ ("send-verification",
          JObj [ ("to", JStr "a@x.com");
                 ("data", JObj [ ("name", JStr "alice");
                                 ("token", JStr "9f3c07") ]) ]) ].
Proof. cbv zeta. repeat split; reflexivity. Qed.

(** The same for every world: when the lookup and the update go through, the
    one event [forgotPassword] adds has neither [to] nor [data]. *)
Lemma forgotPassword_event_lacks_recipient
  {collab : Collaborators} (dto : ForgotPasswordDto.t) (w : World) (u : User) :
  calm 2 w ->
  find (Prisma.by_email (ForgotPasswordDto.email dto)) (users w) = Some u ->
  exists payload,
    emitted (snd (forgotPassword dto w))
    = emitted w ++ [ ("send-reset-token", payload) ]
    /\ prop "to" payload = None /\ prop "data" payload = None.
Proof.
  intros Hcalm Hfind.
  rewrite (forgotPassword_known_email dto w u Hcalm Hfind).
  eexists. split; [reflexivity |]. split; reflexivity.
Qed.

(** *** Instances of the general statements *)

Lemma login_unverified_never_issues_session_token_witness :
  let dto := LoginDto.make "a@x.com" "hunter2" in
  (find (Prisma.by_email (LoginDto.email dto)) (users Demo.world) = Some Demo.alice
   /\ verified Demo.alice = Some false
   /\ argon_verify_with (passwordhash Demo.alice) (LoginDto.password dto) = true
   /\ calm 3 Demo.world)
  /\ exists w',
       login dto Demo.world = (Ok please_verify, w')
       /\ find (Prisma.by_email (LoginDto.email dto)) (users w')
          = Some (Prisma.touch_user (now Demo.world)
                    (set_token (Some "9f3c07") Demo.alice))
       /\ token (Prisma.touch_user (now Demo.world)
                   (set_token (Some "9f3c07") Demo.alice)) = Some "9f3c07"
       /\ emitted w' = emitted Demo.world ++ [verification_mail Demo.alice "9f3c07"]
       /\ cursor w' = cursor Demo.world + 3.
Proof.
  intros dto.
  split; [repeat split; reflexivity |].
  exact (proj2 (proj2 (proj2
           (login_unverified_never_issues_session_token dto Demo.world Demo.alice
              eq_refl eq_refl eq_refl))) eq_refl).
Defined.

Lemma login_failures_surface_as_unauthorized_witness :
  let dto := LoginDto.make "b@x.com" "sword" in
  (find (Prisma.by_email (LoginDto.email dto)) (users Demo.world) = Some Demo.bob
   /\ argon_verify_with (passwordhash Demo.bob) (LoginDto.password dto) = false)
  /\ exists w',
       login dto Demo.world
       = (Throw (UnauthorizedException "Login failed, try again."), w').
Proof.
  intros dto.
  split; [split; reflexivity |].
  exact (proj2 (proj2 (login_failures_surface_as_unauthorized dto Demo.world))
           Demo.bob eq_refl eq_refl).
Defined.

Lemma login_verified_performs_no_write_witness :
  let dto := LoginDto.make "b@x.com" "swordfish" in
  (find (Prisma.by_email (LoginDto.email dto)) (users Demo.world) = Some Demo.bob
   /\ verified Demo.bob = Some true
   /\ argon_verify_with (passwordhash Demo.bob) (LoginDto.password dto) = true
   /\ calm 3 Demo.world)
  /\ users (snd (login dto Demo.world)) = users Demo.world
  /\ exists w', login dto Demo.world = (Ok (session Demo.bob (now Demo.world)), w').
Proof.
  intros dto.
  split; [repeat split; reflexivity |].
  pose proof (login_verified_performs_no_write dto Demo.world Demo.bob
                eq_refl eq_refl eq_refl) as [[Husers _] [_ Hrun]].
  split; [exact Husers | exact (Hrun eq_refl)].
Defined.

Lemma resetPassword_overwrites_without_token_check_witness :
  let dto := ResetPasswordDto.make "a@x.com" "correct horse" in
  (calm 2 Demo.world
   /\ find (Prisma.by_email (ResetPasswordDto.email dto)) (users Demo.world)
      = Some Demo.alice)
  /\ exists w',
       resetPassword dto Demo.world
       = (Ok (envelope "Password Reset successfully." "success" 200 JNull), w')
       /\ option_map passwordhash
            (find (Prisma.by_email (ResetPasswordDto.email dto)) (users w'))
          = Some "9f3c07e15ab042424242424242424242:correct horse"
       /\ option_map resetToken
            (find (Prisma.by_email (ResetPasswordDto.email dto)) (users w'))
          = Some (Some "r3s3t0").
Proof.
  intros dto.
  split; [split; reflexivity |].
  destruct (resetPassword_overwrites_without_token_check dto Demo.world Demo.alice
              eq_refl eq_refl) as [(w' & Hrun & Hfind) _].
  exists w'. split; [exact Hrun |]. rewrite Hfind. split; reflexivity.
Defined.

Lemma replies_never_expose_passwordhash_witness :
  let c := Register (CreateUserDto.make "c@x.com" "carol" "Carol" "Cole" "pw") in
  let r := envelope "User registered." "Success" 201
             (JObj [ ("email", JStr "c@x.com"); ("username", JStr "carol") ]) in
  perform c Demo.world = (Ok r, snd (perform c Demo.world))
  /\ has_key "passwordhash" r = false
  /\ prop "data" r
     = Some (JObj [ ("email", JStr "c@x.com"); ("username", JStr "carol") ]).
Proof.
  intros c r.
  split; [reflexivity |].
  exact (replies_never_expose_passwordhash c Demo.world
           (snd (perform c Demo.world)) r eq_refl).
Defined.

Lemma getFarms_always_lists_witness :
  faulty Demo.world (clock Demo.world) = false
  /\ exists w',
       getFarms "u2" Demo.world
       = (Ok (JObj [ ("message", JStr "Farms retrieved.");
                     ("status", JStr "success");
                     ("statusCode", JInt 200);
                     ("data", JArr []) ]), w')
       /\ console w' = console Demo.world.
Proof.
  split; [reflexivity |].
  exact (proj1 (getFarms_always_lists "u2" Demo.world) eq_refl).
Defined.

End Runs.

(** * Further properties of the two services *)

Ltac open_monad :=
  unfold try_catch, bind, ret, throw, gets, modify, emit, console_error,
    await_call, randomBytes;
  unfold set_users, set_farms, set_emitted, set_console, set_cursor, set_clock,
    set_minted.

(** ** Schedules of collaborator calls *)

Lemma quiet_add (f : nat -> bool) (c a b : nat) :
  quiet f c (a + b) = quiet f c a && quiet f (a + c) b.
Proof.
  revert c. induction a as [| a IH]; intros c; [reflexivity |].
  cbn [Nat.add quiet]. rewrite IH, Nat.add_succ_r, andb_assoc. reflexivity.
Qed.

Lemma calm_split (a b : nat) (w : World) :
  calm (a + b) w ->
  calm a w /\ quiet (faulty w) (a + clock w) b = true.
Proof.
  unfold calm. rewrite quiet_add. apply andb_true_iff.
Qed.


Lemma find_app_none {A : Type} (p : A -> bool) (l l' : list A) :
  find p l = None -> find p (l ++ l') = find p l'.
Proof.
  induction l as [| x rest IH]; [reflexivity |].
  cbn [find app]. destruct (p x); [discriminate | exact IH].
Qed.

Lemma find_app_some {A : Type} (p : A -> bool) (l l' : list A) (a : A) :
  find p l = Some a -> find p (l ++ l') = Some a.
Proof.
  induction l as [| x rest IH]; [discriminate |].
  cbn [find app]. destruct (p x); [trivial | exact IH].
Qed.

(** ** [AuthService.register] *)

Section RegisterProperties.

Context {collab : Collaborators}.

Import AuthService.


Lemma user_create_clash
  (e uname fname lname hash : string) (b : bool) (w : World) :
  faulty w (clock w) = false ->
  existsb (Prisma.by_email e) (users w)
  || existsb (Prisma.by_username uname) (users w) = true ->
  Prisma.user_create e uname fname lname hash b w
  = (Throw (PrismaClientKnownRequestError "P2002"), set_clock (S (clock w)) w).
Proof.
  intros F Hclash. unfold Prisma.user_create.
  rewrite (bind_ok _ _ _ _ _ (await_call_calm _ w F)).
  unfold bind, gets, throw. cbn [users set_clock]. now rewrite Hclash.
Qed.


(** X2: registering an email or a username that a stored user already has
    never succeeds.  Under every schedule of collaborator failures the caller
    gets [InternalServerErrorException "Registration failed."], the user
    collection is left as it was and no event is emitted. *)
Theorem register_rejects_duplicates (dto : CreateUserDto.t) (w : World) (u : User) :
  In u (users w) ->
  email u = CreateUserDto.email dto \/ username u = CreateUserDto.username dto ->
  fst (register dto w)
  = Throw (InternalServerErrorException "Registration failed.")
  /\ users (snd (register dto w)) = users w
  /\ emitted (snd (register dto w)) = emitted w.
Proof.
  intros Hin Hdup.
  assert (Hclash :
    existsb (Prisma.by_email (CreateUserDto.email dto)) (users w)
    || existsb (Prisma.by_username (CreateUserDto.username dto)) (users w) = true).
  { apply orb_true_iff. destruct Hdup as [He | Hu]; [left | right];
      apply existsb_exists; exists u; split; trivial.
    - unfold Prisma.by_email. now rewrite He, String.eqb_refl.
    - unfold Prisma.by_username. now rewrite Hu, String.eqb_refl. }
  unfold register, argon_hash, Prisma.user_create, Prisma.mint_id.
  open_monad. cbn.
  destruct (faulty w (clock w)); cbn; [tauto |].
  destruct (faulty w (S (clock w))); cbn; [tauto |].
  rewrite Hclash. cbn. tauto.
Qed.

End RegisterProperties.

Ltac open_services :=
  unfold perform, AuthService.register, AuthService.login,
    AuthService.forgotPassword, AuthService.verifyToken,
    AuthService.resetPassword, AuthService.getUserByEmail,
    AuthService.randomDigits, FarmService.createFarm, FarmService.getFarms,
    FarmService.getById, FarmService.updateFarm, FarmService.deleteFarm;
  unfold argon_hash, argon_verify, jwt_signAsync, Prisma.user_findUnique,
    Prisma.user_create, Prisma.user_update, Prisma.user_connect_farm,
    Prisma.farm_create, Prisma.farm_findMany, Prisma.farm_findUnique,
    Prisma.farm_update, Prisma.farm_delete, Prisma.mint_id;
  open_monad.

Ltac split_run :=
  repeat (cbn;
          match goal with
          | |- context [if faulty ?w ?n then _ else _] => destruct (faulty w n)
          | |- context [match find ?p ?l with _ => _ end] =>
              let H := fresh "Hfind" in destruct (find p l) eqn:H
          | |- context [if ?b then _ else _] =>
              match type of b with
              | bool => let H := fresh "Hb" in destruct b eqn:H
              end
          | |- context [match ?x with Some _ => _ | None => _ end] =>
              let H := fresh "Hx" in destruct x eqn:H
          end).

(** ** What the operations do to the user collection *)

Section UserCollection.

Context {collab : Collaborators}.

(** Every operation leaves the user collection as it was, or rewrites one
    record in place keeping its id, email and username, or appends one record
    whose email and username no stored user has. *)
Lemma perform_users (c : Call) (w : World) :
  users (snd (perform c w)) = users w
  \/ (exists p g,
        users (snd (perform c w)) = Prisma.update_first p g (users w)
        /\ forall x, user_id (g x) = user_id x /\ email (g x) = email x
                     /\ username (g x) = username x)
  \/ (exists u,
        users (snd (perform c w)) = users w ++ [u]
        /\ existsb (Prisma.by_email (email u)) (users w) = false
        /\ existsb (Prisma.by_username (username u)) (users w) = false).
Proof.
  destruct c; open_services; split_run;
    first
      [ left; reflexivity
      | right; left; eexists _, _; split; [reflexivity | intros x; repeat split]
      | right; right; eexists; split; [reflexivity |];
        cbn;
        match goal with
        | H : _ || _ = false |- _ => apply orb_false_iff in H; exact H
        end ].
Qed.

Lemma map_update_first_same {A B : Type} (f : A -> B) (p : A -> bool) (g : A -> A) (l : list A) :
  (forall x, f (g x) = f x) ->
  map f (Prisma.update_first p g l) = map f l.
Proof.
  intros Hsame. induction l as [| x rest IH]; [reflexivity |].
  cbn [Prisma.update_first]. destruct (p x); cbn [map].
  - now rewrite Hsame.
  - now rewrite IH.
Qed.

Lemma NoDup_snoc {A : Type} (l : list A) (a : A) :
  NoDup l -> ~ In a l -> NoDup (l ++ [a]).
Proof.
  intros Hl Ha. induction Hl as [| x rest Hx Hrest IH]; cbn.
  - constructor; [intros [] | constructor].
  - constructor.
    + intros Hin. apply in_app_or in Hin. destruct Hin as [Hin | [-> | []]].
      * now apply Hx.
      * apply Ha. now left.
    + apply IH. intros Hin. apply Ha. now right.
Qed.

Lemma no_match_not_in (f : User -> string) (k : string) (l : list User) :
  existsb (fun u => String.eqb (f u) k) l = false -> ~ In k (map f l).
Proof.
  intros Hnone Hin. apply in_map_iff in Hin. destruct Hin as (u & <- & Hu).
  assert (Hyes : existsb (fun v => String.eqb (f v) (f u)) l = true).
  { apply existsb_exists. exists u. split; [exact Hu | apply String.eqb_refl]. }
  congruence.
Qed.

(** X3: the two [@unique] keys stay unique.  If no two stored users share
    an email and no two share a username, the same holds after any operation
    of either service, however the operation ends. *)
Theorem operations_keep_email_and_username_unique (c : Call) (w : World) :
  NoDup (map email (users w)) ->
  NoDup (map username (users w)) ->
  NoDup (map email (users (snd (perform c w))))
  /\ NoDup (map username (users (snd (perform c w)))).
Proof.
  intros He Hu.
  destruct (perform_users c w) as [-> | [(p & g & -> & Hkeep) | (u & -> & Hne & Hnu)]].
  - now split.
  - rewrite !map_update_first_same; [now split | apply Hkeep | apply Hkeep].
  - rewrite !map_app. cbn [map]. split; apply NoDup_snoc; trivial.
    + exact (no_match_not_in email _ _ Hne).
    + exact (no_match_not_in username _ _ Hnu).
Qed.

(** X4: no operation deletes a user or changes a stored user's id, email or
    username: the list of these triples after a call is the list before it,
    followed by at most one new triple. *)
Theorem operations_never_drop_or_rekey_users (c : Call) (w : World) :
  let key := fun u : User => (user_id u, email u, username u) in
  exists added,
    map key (users (snd (perform c w))) = map key (users w) ++ added
    /\ List.length added <= 1.
Proof.
  intros key.
  destruct (perform_users c w) as [-> | [(p & g & -> & Hkeep) | (u & -> & _)]].
  - exists []. rewrite app_nil_r. split; [reflexivity | cbn; lia].
  - exists []. rewrite app_nil_r. split; [| cbn; lia].
    apply map_update_first_same. intros x. unfold key.
    destruct (Hkeep x) as (-> & -> & ->). reflexivity.
  - exists [key u]. rewrite map_app. split; [reflexivity | cbn; lia].
Qed.

(** X5: what each operation leaves alone, however it ends.  The five
    operations of [AuthService] never touch the farms, and [verifyToken] and
    [resetPassword] emit nothing.  Listing and fetching farms change neither
    collection and emit nothing; updating and deleting a farm never touch the
    users; no operation of [FarmService] emits an event. *)
Theorem operations_frame (c : Call) (w : World) :
  let w' := snd (perform c w) in
  match c with
  | Register _ | Login _ | ForgotPassword _ => farms w' = farms w
  | VerifyToken _ _ | ResetPassword _ =>
      farms w' = farms w /\ emitted w' = emitted w
  | GetFarms _ | GetById _ _ =>
      users w' = users w /\ farms w' = farms w /\ emitted w' = emitted w
  | UpdateFarm _ _ _ | DeleteFarm _ _ =>
      users w' = users w /\ emitted w' = emitted w
  | CreateFarm _ _ => emitted w' = emitted w
  end.
Proof.
  destruct c; open_services; split_run; cbn; repeat split.
Qed.


(** X7: mail goes out only with a reply.  A call that fails emits no event,
    and a call that replies emits at most one. *)
Theorem operations_emit_only_on_success (c : Call) (w : World) :
  let w' := snd (perform c w) in
  match fst (perform c w) with
  | Throw _ => emitted w' = emitted w
  | Ok _ => emitted w' = emitted w \/ exists ev, emitted w' = emitted w ++ [ev]
  end.
Proof.
  destruct c; open_services; split_run; cbn;
    first [reflexivity | left; reflexivity | right; eexists; reflexivity].
Qed.

(** X8: every operation but [createFarm] is all or nothing: when it
    fails, the users and the farms are exactly what they were before the
    call. *)
Theorem operations_fail_without_writing (c : Call) (w : World) (e : Exn) :
  (forall uid dto, c <> CreateFarm uid dto) ->
  fst (perform c w) = Throw e ->
  users (snd (perform c w)) = users w /\ farms (snd (perform c w)) = farms w.
Proof.
  intros Hc.
  destruct c; try (exfalso; eapply Hc; reflexivity);
    open_services; split_run; cbn; intros Hrun;
    first [discriminate Hrun | split; reflexivity].
Qed.

End UserCollection.

(** ** The verification and reset flows *)

Section Flows.

Context {collab : Collaborators}.

Import AuthService.

Lemma find_update_first_other {A : Type} (p q : A -> bool) (f : A -> A) (l : list A) :
  (forall x, q (f x) = q x) ->
  (forall x, p x = true -> q x = false) ->
  find q (Prisma.update_first p f l) = find q l.
Proof.
  intros Hq Hdisj.
  induction l as [| x rest IH]; [reflexivity |].
  cbn [Prisma.update_first find]. destruct (p x) eqn:Hx; cbn [find].
  - now rewrite Hq, (Hdisj x Hx).
  - now rewrite IH.
Qed.

Lemma by_email_disjoint (e e' : string) (x : User) :
  e' <> e -> Prisma.by_email e x = true -> Prisma.by_email e' x = false.
Proof.
  unfold Prisma.by_email. intros Hne Hx. apply String.eqb_eq in Hx.
  apply String.eqb_neq. congruence.
Qed.

Lemma login_wrong_password_refused (dto : LoginDto.t) (w : World) (u : User) :
  find (Prisma.by_email (LoginDto.email dto)) (users w) = Some u ->
  argon_verify_with (passwordhash u) (LoginDto.password dto) = false ->
  exists w',
    login dto w = (Throw (UnauthorizedException "Login failed, try again."), w').
Proof.
  intros Hfind Hpw. unfold login.
  match goal with
  | |- exists _, try_catch ?body (fun _ => throw ?x) _ = _ =>
      destruct (try_catch_rethrow body x w)
        as [(a & w1 & Hok & _) | (w1 & Hthrow)]
  end.
  - exfalso. exact (login_wrong_password_no_reply dto w w1 u a Hfind Hpw Hok).
  - now exists w1.
Qed.

(** X9: the code a login sends verifies the account.  For an unverified
    user with the right password and eight collaborator calls going through:
    [login] asks to verify, [verifyToken] with the code that login stored and
    mailed succeeds, and the next [login] with the same credentials answers
    with an [access_token]. *)
Theorem login_code_verifies_account (dto : LoginDto.t) (w : World) (u : User) :
  find (Prisma.by_email (LoginDto.email dto)) (users w) = Some u ->
  verified u = Some false ->
  argon_verify_with (passwordhash u) (LoginDto.password dto) = true ->
  calm 8 w ->
  let code := Buffer.toString_hex (map (entropy w) (seq (cursor w) 3)) in
  exists w1 w2 w3 signed,
    login dto w = (Ok please_verify, w1)
    /\ emitted w1 = emitted w ++ [verification_mail u code]
    /\ verifyToken (LoginDto.email dto) code w1
       = (Ok (envelope "Valid Token" "success" 200 JNull), w2)
    /\ login dto w2 = (Ok (JObj [ ("access_token", JStr signed) ]), w3).
Proof.
  intros Hfind Hflag Hpw Hcalm code.
  pose proof (find_by_email_email _ _ _ Hfind) as Hmail.
  destruct (calm_split 3 5 w Hcalm) as [C1 Q].
  rewrite (quiet_add _ _ 2 3) in Q. apply andb_true_iff in Q. destruct Q as [C2 C3].
  pose proof (login_unverified_run dto w u Hfind Hflag Hpw C1) as R1.
  cbv zeta in R1. fold code in R1.
  set (u1 := Prisma.touch_user (now w) (set_token (Some code) u)).
  match type of R1 with _ = (_, ?x) => set (w1 := x) in * end.
  assert (F1 : find (Prisma.by_email (LoginDto.email dto)) (users w1) = Some u1).
  { unfold w1. cbn [users set_emitted set_users]. rewrite Hmail.
    apply (find_update_first _
             (fun x => Prisma.touch_user (now w) (set_token (Some code) x)) _ _ Hfind).
    exact (proj2 (find_some _ _ Hfind)). }
  assert (M1 : strict_eq code (token u1) = true) by apply String.eqb_refl.
  pose proof (verifyToken_match (LoginDto.email dto) code w1 u1 C2 F1 M1) as R2.
  set (u2 := Prisma.touch_user (now w1) (set_verified (Some true) u1)).
  match type of R2 with _ = (_, ?x) => set (w2 := x) in * end.
  assert (F2 : find (Prisma.by_email (LoginDto.email dto)) (users w2) = Some u2).
  { unfold w2. cbn [users set_users].
    apply (find_update_first _
             (fun x => Prisma.touch_user (now w1) (set_verified (Some true) x)) _ _ F1).
    exact (proj2 (find_some _ _ Hfind)). }
  pose proof (login_verified_run dto w2 u2 F2 eq_refl Hpw C3) as R3.
  exists w1, w2. eexists. eexists.
  split; [exact R1 |]. split; [reflexivity |]. split; [exact R2 |]. exact R3.
Qed.

(** X10: a second login replaces the code of the first.  After two logins
    of an unverified user that drew different codes, [verifyToken] with the
    first code fails and the user stays unverified, holding the second
    code. *)
Theorem second_login_invalidates_first_code (dto : LoginDto.t) (w : World) (u : User) :
  find (Prisma.by_email (LoginDto.email dto)) (users w) = Some u ->
  verified u = Some false ->
  argon_verify_with (passwordhash u) (LoginDto.password dto) = true ->
  calm 7 w ->
  let code1 := Buffer.toString_hex (map (entropy w) (seq (cursor w) 3)) in
  let code2 := Buffer.toString_hex (map (entropy w) (seq (cursor w + 3) 3)) in
  code1 <> code2 ->
  exists w1 w2 w3 u3,
    login dto w = (Ok please_verify, w1)
    /\ login dto w1 = (Ok please_verify, w2)
    /\ verifyToken (LoginDto.email dto) code1 w2
       = (Throw (InternalServerErrorException "Token could not be verified."), w3)
    /\ find (Prisma.by_email (LoginDto.email dto)) (users w3) = Some u3
    /\ verified u3 = Some false
    /\ token u3 = Some code2.
Proof.
  intros Hfind Hflag Hpw Hcalm code1 code2 Hdiff.
  pose proof (find_by_email_email _ _ _ Hfind) as Hmail.
  destruct (calm_split 3 4 w Hcalm) as [C1 Q].
  rewrite (quiet_add _ _ 3 1) in Q. apply andb_true_iff in Q. destruct Q as [C2 C3].
  pose proof (login_unverified_run dto w u Hfind Hflag Hpw C1) as R1.
  cbv zeta in R1. fold code1 in R1.
  set (u1 := Prisma.touch_user (now w) (set_token (Some code1) u)).
  match type of R1 with _ = (_, ?x) => set (w1 := x) in * end.
  assert (F1 : find (Prisma.by_email (LoginDto.email dto)) (users w1) = Some u1).
  { unfold w1. cbn [users set_emitted set_users]. rewrite Hmail.
    apply (find_update_first _
             (fun x => Prisma.touch_user (now w) (set_token (Some code1) x)) _ _ Hfind).
    exact (proj2 (find_some _ _ Hfind)). }
  pose proof (login_unverified_run dto w1 u1 F1 Hflag Hpw C2) as R2.
  cbv zeta in R2.
  change (Buffer.toString_hex (map (entropy w1) (seq (cursor w1) 3))) with code2 in R2.
  set (u2 := Prisma.touch_user (now w1) (set_token (Some code2) u1)).
  match type of R2 with _ = (_, ?x) => set (w2 := x) in * end.
  assert (F2 : find (Prisma.by_email (LoginDto.email dto)) (users w2) = Some u2).
  { unfold w2. cbn [users set_emitted set_users].
    change (email u1) with (email u). rewrite Hmail.
    apply (find_update_first _
             (fun x => Prisma.touch_user (now w1) (set_token (Some code2) x)) _ _ F1).
    exact (proj2 (find_some _ _ Hfind)). }
  assert (M : strict_eq code1 (token u2) = false).
  { cbn. now apply String.eqb_neq. }
  assert (C3' : faulty w2 (clock w2) = false).
  { cbn in C3. rewrite andb_true_r in C3. apply negb_true_iff in C3. exact C3. }
  pose proof (verifyToken_mismatch (LoginDto.email dto) code1 w2 u2 C3' F2 M) as R3.
  exists w1, w2. eexists. exists u2.
  split; [exact R1 |]. split; [exact R2 |]. split; [exact R3 |].
  split; [exact F2 |]. split; [exact Hflag | reflexivity].
Qed.

(** X11: a user whose stored verification token is null cannot be verified.
    Whatever string is submitted (the empty one included) and whatever the
    collaborators do, [verifyToken] fails with
    [InternalServerErrorException] and leaves the user collection as it
    was. *)
Theorem verifyToken_null_token_never_verifies
  (e t : string) (w : World) (u : User) :
  find (Prisma.by_email e) (users w) = Some u ->
  token u = None ->
  fst (verifyToken e t w)
  = Throw (InternalServerErrorException "Token could not be verified.")
  /\ users (snd (verifyToken e t w)) = users w.
Proof.
  intros Hfind Hnull.
  unfold verifyToken, Prisma.user_findUnique, Prisma.user_update. open_monad. cbn.
  destruct (faulty w (clock w)); cbn; [tauto |].
  rewrite Hfind. unfold strict_eq. rewrite Hnull. cbn. tauto.
Qed.

(** X12: a verification code is not used up.  [verifyToken] with the
    stored code succeeds, and succeeds again when repeated: the user is
    verified and still holds the same code. *)
Theorem verifyToken_code_stays_valid (e t : string) (w : World) (u : User) :
  find (Prisma.by_email e) (users w) = Some u ->
  token u = Some t ->
  calm 4 w ->
  exists w1 w2 u2,
    verifyToken e t w = (Ok (envelope "Valid Token" "success" 200 JNull), w1)
    /\ verifyToken e t w1 = (Ok (envelope "Valid Token" "success" 200 JNull), w2)
    /\ find (Prisma.by_email e) (users w2) = Some u2
    /\ verified u2 = Some true
    /\ token u2 = Some t.
Proof.
  intros Hfind Htok Hcalm.
  destruct (calm_split 2 2 w Hcalm) as [C1 C2].
  assert (M : strict_eq t (token u) = true)
    by (rewrite Htok; apply String.eqb_refl).
  pose proof (verifyToken_match e t w u C1 Hfind M) as R1.
  set (u1 := Prisma.touch_user (now w) (set_verified (Some true) u)).
  match type of R1 with _ = (_, ?x) => set (w1 := x) in * end.
  assert (F1 : find (Prisma.by_email e) (users w1) = Some u1).
  { unfold w1. cbn [users set_users].
    apply (find_update_first _
             (fun x => Prisma.touch_user (now w) (set_verified (Some true) x)) _ _ Hfind).
    exact (proj2 (find_some _ _ Hfind)). }
  pose proof (verifyToken_match e t w1 u1 C2 F1 M) as R2.
  set (u2 := Prisma.touch_user (now w1) (set_verified (Some true) u1)).
  match type of R2 with _ = (_, ?x) => set (w2 := x) in * end.
  exists w1, w2, u2.
  split; [exact R1 |]. split; [exact R2 |]. split; [| split; [reflexivity | exact Htok]].
  unfold w2. cbn [users set_users].
  apply (find_update_first _
           (fun x => Prisma.touch_user (now w1) (set_verified (Some true) x)) _ _ F1).
  exact (proj2 (find_some _ _ Hfind)).
Qed.

(** X13: [forgotPassword] for a stored user, with the lookup and the update
    going through, stores a fresh six-character code as the reset token and
    changes nothing else that matters for signing in: the password hash, the
    [verified] flag and the verification token of that user are as before,
    and every other user's record is untouched.  The code is fresh: the
    three bytes it was made from are consumed, so the next draw reads the
    bytes after them. *)
Theorem forgotPassword_stores_reset_code
  (dto : ForgotPasswordDto.t) (w : World) (u : User) :
  find (Prisma.by_email (ForgotPasswordDto.email dto)) (users w) = Some u ->
  calm 2 w ->
  let code := Buffer.toString_hex (map (entropy w) (seq (cursor w) 3)) in
  exists w' u',
    forgotPassword dto w
    = (Ok (envelope "Reset token has been sent to your email" "success" 200 JNull), w')
    /\ find (Prisma.by_email (ForgotPasswordDto.email dto)) (users w') = Some u'
    /\ resetToken u' = Some code
    /\ String.length code = 6
    /\ (passwordhash u' = passwordhash u /\ verified u' = verified u
        /\ token u' = token u)
    /\ (forall e', e' <> ForgotPasswordDto.email dto ->
          find (Prisma.by_email e') (users w') = find (Prisma.by_email e') (users w))
    /\ cursor w' = cursor w + 3.
Proof.
  intros Hfind Hcalm code.
  pose proof (find_by_email_email _ _ _ Hfind) as Hmail.
  pose proof (forgotPassword_known_email dto w u Hcalm Hfind) as R.
  cbv zeta in R. fold code in R.
  eexists. exists (Prisma.touch_user (now w) (set_resetToken (Some code) u)).
  split; [exact R |].
  cbn [users set_emitted set_users]. rewrite Hmail.
  split; [| split; [reflexivity | split; [| split; [repeat split |]]]];
    [| | split; [| reflexivity]].
  - apply (find_update_first _
             (fun x => Prisma.touch_user (now w) (set_resetToken (Some code) x))
             _ _ Hfind).
    exact (proj2 (find_some _ _ Hfind)).
  - unfold code. now rewrite toString_hex_length, length_map, length_seq.
  - intros e' Hne. apply find_update_first_other.
    + reflexivity.
    + intros x. now apply by_email_disjoint.
Qed.

(** X14: after [resetPassword] the new password signs in.  For a verified
    user and five collaborator calls going through, with a hash library whose
    [verify] accepts the hash just made for the new password: [resetPassword]
    succeeds and a following [login] with the new password answers with an
    [access_token].  If [verify] rejects the old password against the new
    hash, a [login] with the old password is refused. *)
Theorem resetPassword_then_login
  (dto : ResetPasswordDto.t) (old : string) (w : World) (u : User) :
  find (Prisma.by_email (ResetPasswordDto.email dto)) (users w) = Some u ->
  verified u = Some true ->
  calm 5 w ->
  let hash :=
    argon_hash_with (map (entropy w) (seq (cursor w) 16))
      (ResetPasswordDto.newPassword dto) in
  argon_verify_with hash (ResetPasswordDto.newPassword dto) = true ->
  exists w1,
    resetPassword dto w
    = (Ok (envelope "Password Reset successfully." "success" 200 JNull), w1)
    /\ (exists w2 signed,
          login (LoginDto.make (ResetPasswordDto.email dto)
                   (ResetPasswordDto.newPassword dto)) w1
          = (Ok (JObj [ ("access_token", JStr signed) ]), w2))
    /\ (argon_verify_with hash old = false ->
        exists w2,
          login (LoginDto.make (ResetPasswordDto.email dto) old) w1
          = (Throw (UnauthorizedException "Login failed, try again."), w2)).
Proof.
  intros Hfind Hflag Hcalm hash Hnew.
  destruct (calm_split 2 3 w Hcalm) as [C1 C2].
  pose proof (resetPassword_run dto w u C1 Hfind) as R1.
  cbv zeta in R1. fold hash in R1.
  set (u1 := Prisma.touch_user (now w) (set_passwordhash hash u)).
  match type of R1 with _ = (_, ?x) => set (w1 := x) in * end.
  assert (F1 : find (Prisma.by_email (ResetPasswordDto.email dto)) (users w1) = Some u1).
  { unfold w1. cbn [users set_users].
    apply (find_update_first _
             (fun x => Prisma.touch_user (now w) (set_passwordhash hash x)) _ _ Hfind).
    exact (proj2 (find_some _ _ Hfind)). }
  exists w1. split; [exact R1 |]. split.
  - eexists. eexists.
    exact (login_verified_run
             (LoginDto.make (ResetPasswordDto.email dto) (ResetPasswordDto.newPassword dto))
             w1 u1 F1 Hflag Hnew C2).
  - intros Hold.
    exact (login_wrong_password_refused
             (LoginDto.make (ResetPasswordDto.email dto) old) w1 u1 F1 Hold).
Qed.

(** X15: [resetPassword] for an email no user has never succeeds: under
    every schedule the caller gets
    [InternalServerErrorException "Password could not be reset."] and no
    record changes. *)
Theorem resetPassword_unknown_email (dto : ResetPasswordDto.t) (w : World) :
  find (Prisma.by_email (ResetPasswordDto.email dto)) (users w) = None ->
  fst (resetPassword dto w)
  = Throw (InternalServerErrorException "Password could not be reset.")
  /\ users (snd (resetPassword dto w)) = users w.
Proof.
  intros Hfind.
  unfold resetPassword, argon_hash, Prisma.user_update. open_monad. cbn.
  destruct (faulty w (clock w)); cbn; [tauto |].
  destruct (faulty w (S (clock w))); cbn; [tauto |].
  rewrite Hfind. cbn. tauto.
Qed.

End Flows.

(** ** One-time codes, again *)

Lemma byte_of_hex_digits (b : byte) :
  let unhex := fun c : ascii =>
    (if N_of_ascii c <? 58 then N_of_ascii c - 48 else N_of_ascii c - 87)%N in
  Byte.of_N (16 * unhex (Buffer.hex_digit (Byte.to_N b / 16))
             + unhex (Buffer.hex_digit (Byte.to_N b mod 16)))%N
  = Some b.
Proof. destruct b; reflexivity. Qed.

Lemma toString_hex_inj (buf1 buf2 : list byte) :
  Buffer.toString_hex buf1 = Buffer.toString_hex buf2 -> buf1 = buf2.
Proof.
  revert buf2. induction buf1 as [| b1 rest1 IH]; intros [| b2 rest2] Heq;
    try reflexivity; try discriminate Heq.
  unfold Buffer.toString_hex in Heq; fold Buffer.toString_hex in Heq.
  injection Heq as Hhi Hlo Hrest.
  pose proof (byte_of_hex_digits b1) as D1.
  pose proof (byte_of_hex_digits b2) as D2.
  cbv zeta in D1, D2. rewrite Hhi, Hlo, D2 in D1.
  injection D1 as ->. f_equal. now apply IH.
Qed.

(** X16: two draws of [randomDigits] give the same code exactly when the
    three bytes they read are the same, so the codes range over all 2^24
    byte triples. *)
Theorem randomDigits_codes_coincide_only_with_bytes (w1 w2 : World) :
  fst (AuthService.randomDigits w1) = fst (AuthService.randomDigits w2)
  <-> map (entropy w1) (seq (cursor w1) 3) = map (entropy w2) (seq (cursor w2) 3).
Proof.
  rewrite !randomDigits_run. cbn [fst]. split.
  - intros Heq. apply toString_hex_inj. congruence.
  - intros Heq. f_equal. f_equal. exact Heq.
Qed.

(** ** [FarmService]: creating, updating and deleting *)

Section FarmWrites.

Import FarmService.

Lemma update_first_app_none {A : Type} (p : A -> bool) (g : A -> A) (l l' : list A) :
  find p l = None ->
  Prisma.update_first p g (l ++ l') = l ++ Prisma.update_first p g l'.
Proof.
  induction l as [| x rest IH]; [reflexivity |].
  cbn [find app Prisma.update_first]. destruct (p x); [discriminate |].
  intros H. now rewrite IH.
Qed.

Lemma find_none_weaken {A : Type} (p q : A -> bool) (l : list A) :
  (forall x, q x = true -> p x = true) ->
  find p l = None -> find q l = None.
Proof.
  intros Himp. induction l as [| x rest IH]; [reflexivity |].
  cbn [find]. destruct (p x) eqn:Hp; [discriminate |].
  destruct (q x) eqn:Hq; [| exact IH].
  apply Himp in Hq. congruence.
Qed.

Lemma owned_has_id (uid fid : string) (f : Farm) :
  Prisma.by_farmer_and_id uid fid f = true -> Prisma.by_farm_id fid f = true.
Proof.
  unfold Prisma.by_farmer_and_id. intros H. apply andb_true_iff in H. tauto.
Qed.

Lemma getById_absent (uid fid : string) (w : World) :
  find (Prisma.by_farmer_and_id uid fid) (farms w) = None ->
  fst (getById uid fid w)
  = Throw (InternalServerErrorException "Farm could not be retrieved").
Proof.
  intros Hnone. unfold getById, Prisma.farm_findUnique. open_monad. cbn.
  destruct (faulty w (clock w)); cbn; [reflexivity |].
  now rewrite Hnone.
Qed.

(** X17: a farm that was created can be fetched.  For a stored user, a body
    with location and soil, an id supply that hands out an id no farm has
    yet, and three collaborator calls going through: [createFarm] appends one
    farm owned by the caller and answers with it, and [getById] by the same
    caller with the new id answers with the same farm. *)
Theorem createFarm_then_getById
  (userid : string) (dto : CreateFarmDto.t) (w : World)
  (owner : User) (l : Location) (s : SoilInfo) :
  find (Prisma.by_user_id userid) (users w) = Some owner ->
  CreateFarmDto.location dto = Some l ->
  CreateFarmDto.soilInfo dto = Some s ->
  find (Prisma.by_farm_id (objectIds w (minted w))) (farms w) = None ->
  calm 3 w ->
  let f :=
    mkFarm (objectIds w (minted w)) userid (CreateFarmDto.name dto) l
      (CreateFarmDto.size dto) (CreateFarmDto.size_unit dto)
      (CreateFarmDto.status dto) s (Some (now w)) (Some (now w)) in
  exists w1 w2,
    createFarm userid dto w
    = (Ok (envelope "Farm created" "success" 201 (farm_json f)), w1)
    /\ farms w1 = farms w ++ [f]
    /\ getById userid (farm_id f) w1
       = (Ok (envelope "Farm retrieved successfully" "success" 200 (farm_json f)), w2).
Proof.
  intros Howner Hloc Hsoil Hfresh Hcalm f.
  destruct (calm_split 2 1 w Hcalm) as [C12 C3].
  pose proof (calm_head _ _ C12) as F1.
  pose proof (calm_head _ _ (calm_tail _ _ C12)) as F2.
  cbn in C3, F2. rewrite andb_true_r in C3. apply negb_true_iff in C3.
  assert (Hid : String.eqb (objectIds w (minted w)) (objectIds w (minted w)) = true)
    by apply String.eqb_refl.
  assert (Hrun :
    createFarm userid dto w
    = (Ok (envelope "Farm created" "success" 201 (farm_json f)),
       set_users
         (Prisma.update_first (Prisma.by_user_id userid)
            (Prisma.touch_user (now w)) (users w))
         (set_farms (farms w ++ [f])
            (set_minted (S (minted w)) (set_clock (S (S (clock w))) w))))).
  { unfold createFarm, Prisma.farm_create, Prisma.user_connect_farm, Prisma.mint_id.
    open_monad. cbn. rewrite F1, Hloc, Hsoil. cbn. rewrite F2. cbn.
    rewrite Howner, (find_app_none _ _ _ Hfresh). cbn.
    rewrite Hid. cbn.
    rewrite (update_first_app_none _ _ _ _ Hfresh). cbn.
    rewrite Hid. reflexivity. }
  eexists. eexists. split; [exact Hrun |]. split; [reflexivity |].
  apply getById_found; [exact C3 |].
  cbn [farms set_users set_farms farm_id f].
  rewrite find_app_none.
  - cbn. unfold Prisma.by_farmer_and_id, Prisma.by_farmer, Prisma.by_farm_id.
    cbn. now rewrite String.eqb_refl, Hid.
  - apply (find_none_weaken (Prisma.by_farm_id (objectIds w (minted w))));
      [apply owned_has_id | exact Hfresh].
Qed.

(** X18: [createFarm] does not undo its first write.  When the insert goes
    through and the link to the user then fails, because that call is
    rejected or because no user has the caller's id, the caller gets
    [InternalServerErrorException "Farm could not be added."] and the new
    farm is in the collection all the same. *)
Theorem createFarm_keeps_farm_when_link_fails
  (userid : string) (dto : CreateFarmDto.t) (w : World)
  (l : Location) (s : SoilInfo) :
  faulty w (clock w) = false ->
  CreateFarmDto.location dto = Some l ->
  CreateFarmDto.soilInfo dto = Some s ->
  faulty w (S (clock w)) = true
  \/ find (Prisma.by_user_id userid) (users w) = None ->
  let f :=
    mkFarm (objectIds w (minted w)) userid (CreateFarmDto.name dto) l
      (CreateFarmDto.size dto) (CreateFarmDto.size_unit dto)
      (CreateFarmDto.status dto) s (Some (now w)) (Some (now w)) in
  fst (createFarm userid dto w)
  = Throw (InternalServerErrorException "Farm could not be added.")
  /\ farms (snd (createFarm userid dto w)) = farms w ++ [f]
  /\ users (snd (createFarm userid dto w)) = users w.
Proof.
  intros F1 Hloc Hsoil Hfail f.
  unfold createFarm, Prisma.farm_create, Prisma.user_connect_farm, Prisma.mint_id.
  open_monad. cbn. rewrite F1, Hloc, Hsoil. cbn.
  destruct (faulty w (S (clock w))) eqn:F2; cbn; [repeat split |].
  destruct Hfail as [Hfail | Hnone]; [discriminate Hfail |].
  rewrite Hnone. cbn. repeat split.
Qed.

Lemma by_farmer_and_id_kept (uid fid : string) (g : Farm -> Farm) (f : Farm) :
  farm_id (g f) = farm_id f ->
  farmerId (g f) = farmerId f ->
  Prisma.by_farmer_and_id uid fid (g f) = Prisma.by_farmer_and_id uid fid f.
Proof.
  intros Hid Hown.
  unfold Prisma.by_farmer_and_id, Prisma.by_farmer, Prisma.by_farm_id.
  now rewrite Hid, Hown.
Qed.

(** X19: an owner's update takes effect and can be read back.  With the
    update and a following fetch going through, [updateFarm] on a farm the
    caller owns writes the name, size, unit and status of the body, writes
    location and soil only when the body has them, keeps id, owner and
    creation time, and answers with the new record; [getById] then answers
    with the same record. *)
Theorem updateFarm_then_getById
  (userid farmid : string) (dto : UpdateFarmDto.t) (w : World) (f : Farm) :
  find (Prisma.by_farmer_and_id userid farmid) (farms w) = Some f ->
  calm 2 w ->
  let f' :=
    mkFarm (farm_id f) (farmerId f) (UpdateFarmDto.name dto)
      (match UpdateFarmDto.location dto with Some l => l | None => location f end)
      (UpdateFarmDto.size dto) (UpdateFarmDto.size_unit dto)
      (UpdateFarmDto.status dto)
      (match UpdateFarmDto.soil dto with Some s => s | None => soil f end)
      (farm_created_at f) (Some (now w)) in
  exists w1 w2,
    updateFarm userid farmid dto w
    = (Ok (envelope "Farm updated successfully" "success" 200 (farm_json f')), w1)
    /\ List.length (farms w1) = List.length (farms w)
    /\ getById userid farmid w1
       = (Ok (envelope "Farm retrieved successfully" "success" 200 (farm_json f')), w2).
Proof.
  intros Hfind Hcalm f'.
  pose proof (calm_head _ _ Hcalm) as F1.
  pose proof (calm_head _ _ (calm_tail _ _ Hcalm)) as F2.
  assert (Hrun :
    updateFarm userid farmid dto w
    = (Ok (envelope "Farm updated successfully" "success" 200 (farm_json f')),
       set_farms
         (Prisma.update_first (Prisma.by_farmer_and_id userid farmid)
            (fun x => Prisma.touch_farm (now w) (apply_update dto x)) (farms w))
         (set_clock (S (clock w)) w))).
  { unfold updateFarm, Prisma.farm_update. open_monad. cbn.
    rewrite F1. cbn. rewrite Hfind. reflexivity. }
  eexists. eexists. split; [exact Hrun |]. split.
  - cbn [farms set_farms].
    rewrite <- (length_map farm_id), map_update_first_same by reflexivity.
    apply length_map.
  - apply getById_found; [exact F2 |].
    cbn [farms set_farms].
    apply (find_update_first _
             (fun x => Prisma.touch_farm (now w) (apply_update dto x)) _ _ Hfind).
    rewrite by_farmer_and_id_kept by reflexivity.
    exact (proj2 (find_some _ _ Hfind)).
Qed.

(** X20: [updateFarm] cannot move or re-own a farm.  However the call ends,
    the farms are the same in number and order, each with the id, owner and
    creation time it had. *)
Theorem updateFarm_keeps_identity
  (userid farmid : string) (dto : UpdateFarmDto.t) (w : World) :
  let key := fun f : Farm => (farm_id f, farmerId f, farm_created_at f) in
  map key (farms (snd (updateFarm userid farmid dto w))) = map key (farms w).
Proof.
  intros key.
  unfold updateFarm, Prisma.farm_update. open_monad. cbn.
  destruct (faulty w (clock w)); cbn; [reflexivity |].
  destruct (find (Prisma.by_farmer_and_id userid farmid) (farms w)); cbn;
    [| reflexivity].
  now apply map_update_first_same.
Qed.

(** X21: a farm the caller does not own is out of reach.  When no farm has
    both the given id and the caller as owner (the id is unknown, or the farm
    belongs to someone else), [updateFarm] and [deleteFarm] fail with
    [InternalServerErrorException] under every schedule and leave the farms
    exactly as they were. *)
Theorem farm_writes_need_ownership
  (userid farmid : string) (dto : UpdateFarmDto.t) (w : World) :
  find (Prisma.by_farmer_and_id userid farmid) (farms w) = None ->
  (fst (updateFarm userid farmid dto w)
   = Throw (InternalServerErrorException "Farm could not be updated.")
   /\ farms (snd (updateFarm userid farmid dto w)) = farms w)
  /\ (fst (deleteFarm userid farmid w)
      = Throw (InternalServerErrorException "Farm could not be deleted.")
      /\ farms (snd (deleteFarm userid farmid w)) = farms w).
Proof.
  intros Hnone.
  unfold updateFarm, deleteFarm, Prisma.farm_update, Prisma.farm_delete.
  open_monad. cbn.
  destruct (faulty w (clock w)); cbn; [repeat split |].
  rewrite Hnone. cbn. repeat split.
Qed.

Lemma filter_update_first_other {A : Type} (p q : A -> bool) (g : A -> A) (l : list A) :
  (forall x, p x = true -> q x = false /\ q (g x) = false) ->
  filter q (Prisma.update_first p g l) = filter q l.
Proof.
  intros Hdisj. induction l as [| x rest IH]; [reflexivity |].
  cbn [Prisma.update_first]. destruct (p x) eqn:Hp; cbn [filter].
  - destruct (Hdisj x Hp) as [-> ->]. reflexivity.
  - now rewrite IH.
Qed.

Lemma filter_remove_first_other {A : Type} (p q : A -> bool) (l : list A) :
  (forall x, p x = true -> q x = false) ->
  filter q (Prisma.remove_first p l) = filter q l.
Proof.
  intros Hdisj. induction l as [| x rest IH]; [reflexivity |].
  cbn [Prisma.remove_first]. destruct (p x) eqn:Hp; cbn [filter].
  - now rewrite (Hdisj x Hp).
  - now rewrite IH.
Qed.

Lemma owned_not_by_other (uid other fid : string) (f : Farm) :
  other <> uid ->
  Prisma.by_farmer_and_id uid fid f = true -> Prisma.by_farmer other f = false.
Proof.
  unfold Prisma.by_farmer_and_id, Prisma.by_farmer. intros Hne H.
  apply andb_true_iff in H. destruct H as [Hown _].
  apply String.eqb_eq in Hown. apply String.eqb_neq. congruence.
Qed.

(** X22: one user's writes never reach another user's farms.  Whatever id
    and body a caller passes to [updateFarm] or [deleteFarm], and however the
    call ends, the farms of every other owner are the same records in the
    same order as before. *)
Theorem farm_writes_leave_other_owners_alone
  (userid other farmid : string) (dto : UpdateFarmDto.t) (w : World) :
  other <> userid ->
  filter (Prisma.by_farmer other) (farms (snd (updateFarm userid farmid dto w)))
  = filter (Prisma.by_farmer other) (farms w)
  /\ filter (Prisma.by_farmer other) (farms (snd (deleteFarm userid farmid w)))
     = filter (Prisma.by_farmer other) (farms w).
Proof.
  intros Hne.
  unfold updateFarm, deleteFarm, Prisma.farm_update, Prisma.farm_delete.
  open_monad. cbn.
  destruct (faulty w (clock w)); cbn; [split; reflexivity |].
  destruct (find (Prisma.by_farmer_and_id userid farmid) (farms w)); cbn;
    [| split; reflexivity].
  split.
  - apply filter_update_first_other. intros x Hx. split.
    + exact (owned_not_by_other _ _ _ _ Hne Hx).
    + apply (owned_not_by_other userid other farmid); [exact Hne |].
      now rewrite by_farmer_and_id_kept.
  - apply filter_remove_first_other. intros x. now apply owned_not_by_other.
Qed.

Lemma remove_first_length {A : Type} (p : A -> bool) (l : list A) (a : A) :
  find p l = Some a -> S (List.length (Prisma.remove_first p l)) = List.length l.
Proof.
  induction l as [| x rest IH]; [discriminate |].
  cbn [find Prisma.remove_first]. destruct (p x); [reflexivity |].
  intros H. cbn [List.length]. now rewrite IH.
Qed.

Lemma remove_first_keeps {A : Type} (p : A -> bool) (l : list A) (a : A) :
  p a = false -> In a l -> In a (Prisma.remove_first p l).
Proof.
  intros Hp. induction l as [| x rest IH]; [intros [] |].
  cbn [Prisma.remove_first]. intros [-> | Hin].
  - rewrite Hp. now left.
  - destruct (p x); [exact Hin | right; now apply IH].
Qed.

Lemma remove_first_subset {A : Type} (p : A -> bool) (l : list A) (a : A) :
  In a (Prisma.remove_first p l) -> In a l.
Proof.
  induction l as [| x rest IH]; [intros [] |].
  cbn [Prisma.remove_first]. destruct (p x).
  - intros Hin. now right.
  - intros [-> | Hin]; [now left | right; now apply IH].
Qed.

Lemma no_farm_with_id (fid : string) (l : list Farm) :
  ~ In fid (map farm_id l) -> find (Prisma.by_farm_id fid) l = None.
Proof.
  intros Hnot. destruct (find (Prisma.by_farm_id fid) l) as [f |] eqn:Hf;
    [| reflexivity].
  exfalso. apply find_some in Hf. destruct Hf as [Hin Hid].
  apply String.eqb_eq in Hid. apply Hnot. rewrite <- Hid. now apply in_map.
Qed.

Lemma remove_first_unique_id (uid fid : string) (l : list Farm) (f : Farm) :
  NoDup (map farm_id l) ->
  find (Prisma.by_farmer_and_id uid fid) l = Some f ->
  find (Prisma.by_farm_id fid)
    (Prisma.remove_first (Prisma.by_farmer_and_id uid fid) l) = None.
Proof.
  induction l as [| x rest IH]; [discriminate |].
  cbn [map find Prisma.remove_first]. intros Hnd Hfind.
  apply NoDup_cons_iff in Hnd. destruct Hnd as [Hx Hrest].
  destruct (Prisma.by_farmer_and_id uid fid x) eqn:Hp.
  - apply owned_has_id in Hp. apply String.eqb_eq in Hp. rewrite Hp in Hx.
    now apply no_farm_with_id.
  - cbn [find]. destruct (Prisma.by_farm_id fid x) eqn:Hid.
    + exfalso. apply String.eqb_eq in Hid. apply Hx. rewrite Hid.
      apply find_some in Hfind. destruct Hfind as [Hin Hq].
      apply owned_has_id in Hq. apply String.eqb_eq in Hq. rewrite <- Hq.
      now apply in_map.
    + now apply IH.
Qed.

(** X23: a deleted farm is gone and only that farm.  With farm ids unique
    and the delete going through, [deleteFarm] on a farm the caller owns
    answers with the success envelope, the collection is one farm shorter,
    every farm with another id is still there, no farm has the deleted id,
    and [getById] with that id fails for every caller. *)
Theorem deleteFarm_removes_exactly_that_farm
  (userid farmid : string) (w : World) (f : Farm) :
  NoDup (map farm_id (farms w)) ->
  find (Prisma.by_farmer_and_id userid farmid) (farms w) = Some f ->
  faulty w (clock w) = false ->
  exists w1,
    deleteFarm userid farmid w
    = (Ok (envelope "Farm deleted successfully" "success" 200 JNull), w1)
    /\ S (List.length (farms w1)) = List.length (farms w)
    /\ (forall g, In g (farms w1) <-> In g (farms w) /\ farm_id g <> farmid)
    /\ (forall caller,
          fst (getById caller farmid w1)
          = Throw (InternalServerErrorException "Farm could not be retrieved")).
Proof.
  intros Hnd Hfind F1.
  assert (Hrun :
    deleteFarm userid farmid w
    = (Ok (envelope "Farm deleted successfully" "success" 200 JNull),
       set_farms (Prisma.remove_first (Prisma.by_farmer_and_id userid farmid) (farms w))
         (set_clock (S (clock w)) w))).
  { unfold deleteFarm, Prisma.farm_delete. open_monad. cbn.
    rewrite F1. cbn. rewrite Hfind. reflexivity. }
  pose proof (remove_first_unique_id _ _ _ _ Hnd Hfind) as Hgone.
  eexists. split; [exact Hrun |]. cbn [farms set_farms].
  split; [exact (remove_first_length _ _ _ Hfind) |]. split.
  - intros g. split.
    + intros Hin. split; [exact (remove_first_subset _ _ _ Hin) |].
      intros Hid. pose proof (find_none _ _ Hgone g Hin) as Hno.
      unfold Prisma.by_farm_id in Hno. rewrite Hid, String.eqb_refl in Hno.
      discriminate Hno.
    + intros [Hin Hid]. apply remove_first_keeps; [| exact Hin].
      unfold Prisma.by_farmer_and_id, Prisma.by_farm_id.
      apply andb_false_iff. right. now apply String.eqb_neq.
  - intros caller. apply getById_absent. cbn [farms set_farms].
    apply (find_none_weaken (Prisma.by_farm_id farmid));
      [apply owned_has_id | exact Hgone].
Qed.

End FarmWrites.

(** ** Instances on the concrete deployment *)

Section MoreRuns.

Import AuthService FarmService.

Local Existing Instance Demo.toy.


Lemma register_rejects_duplicates_witness :
  let dto := CreateUserDto.make "a@x.com" "alice2" "Al" "Ames" "pw" in
  (In Demo.alice (users Demo.world) /\ email Demo.alice = CreateUserDto.email dto)
  /\ fst (register dto Demo.world)
     = Throw (InternalServerErrorException "Registration failed.")
  /\ users (snd (register dto Demo.world)) = users Demo.world.
Proof.
  intros dto. split; [split; [left; reflexivity | reflexivity] |].
  destruct (register_rejects_duplicates dto Demo.world Demo.alice
              (or_introl eq_refl) (or_introl eq_refl)) as (Hthrow & Husers & _).
  split; [exact Hthrow | exact Husers].
Defined.

Lemma village_emails_unique : NoDup (map email (users Demo.village)).
Proof.
  cbn. repeat constructor; cbn; intuition discriminate.
Qed.

Lemma village_usernames_unique : NoDup (map username (users Demo.village)).
Proof.
  cbn. repeat constructor; cbn; intuition discriminate.
Qed.

Lemma operations_keep_email_and_username_unique_witness :
  let c := Register (CreateUserDto.make "c@x.com" "carol" "Carol" "Cole" "pw") in
  (NoDup (map email (users Demo.village))
   /\ NoDup (map username (users Demo.village)))
  /\ List.length (users (snd (perform c Demo.village))) = 4
  /\ NoDup (map email (users (snd (perform c Demo.village))))
  /\ NoDup (map username (users (snd (perform c Demo.village)))).
Proof.
  intros c.
  split; [split; [exact village_emails_unique | exact village_usernames_unique] |].
  split; [reflexivity |].
  exact (operations_keep_email_and_username_unique c Demo.village
           village_emails_unique village_usernames_unique).
Defined.

Lemma operations_fail_without_writing_witness :
  let c := VerifyToken "a@x.com" "abc124" in
  let failure := InternalServerErrorException "Token could not be verified." in
  ((forall uid dto, c <> CreateFarm uid dto)
   /\ fst (perform c Demo.world) = Throw failure)
  /\ users (snd (perform c Demo.world)) = users Demo.world
  /\ farms (snd (perform c Demo.world)) = farms Demo.world.
Proof.
  intros c failure.
  assert (Hc : forall uid dto, c <> CreateFarm uid dto)
    by (intros uid dto H; discriminate H).
  split; [split; [exact Hc | reflexivity] |].
  exact (operations_fail_without_writing c Demo.world failure Hc eq_refl).
Defined.

Lemma login_code_verifies_account_witness :
  let dto := LoginDto.make "a@x.com" "hunter2" in
  (find (Prisma.by_email "a@x.com") (users Demo.world) = Some Demo.alice
   /\ verified Demo.alice = Some false
   /\ argon_verify_with (passwordhash Demo.alice) "hunter2" = true
   /\ calm 8 Demo.world)
  /\ exists w1 w2 w3 signed,
       login dto Demo.world = (Ok please_verify, w1)
       /\ emitted w1 = emitted Demo.world ++ [verification_mail Demo.alice "9f3c07"]
       /\ verifyToken "a@x.com" "9f3c07" w1
          = (Ok (envelope "Valid Token" "success" 200 JNull), w2)
       /\ login dto w2 = (Ok (JObj [ ("access_token", JStr signed) ]), w3).
Proof.
  intros dto. split; [repeat split; reflexivity |].
  exact (login_code_verifies_account dto Demo.world Demo.alice
           eq_refl eq_refl eq_refl eq_refl).
Defined.

Lemma second_login_invalidates_first_code_witness :
  let dto := LoginDto.make "a@x.com" "hunter2" in
  (find (Prisma.by_email "a@x.com") (users Demo.world) = Some Demo.alice
   /\ verified Demo.alice = Some false
   /\ argon_verify_with (passwordhash Demo.alice) "hunter2" = true
   /\ calm 7 Demo.world
   /\ "9f3c07" <> "e15ab0")
  /\ exists w1 w2 w3 u3,
       login dto Demo.world = (Ok please_verify, w1)
       /\ login dto w1 = (Ok please_verify, w2)
       /\ verifyToken "a@x.com" "9f3c07" w2
          = (Throw (InternalServerErrorException "Token could not be verified."), w3)
       /\ find (Prisma.by_email "a@x.com") (users w3) = Some u3
       /\ verified u3 = Some false
       /\ token u3 = Some "e15ab0".
Proof.
  intros dto.
  assert (Hdiff : "9f3c07" <> "e15ab0") by discriminate.
  split; [repeat split; try reflexivity; exact Hdiff |].
  exact (second_login_invalidates_first_code dto Demo.world Demo.alice
           eq_refl eq_refl eq_refl eq_refl Hdiff).
Defined.

Lemma verifyToken_null_token_never_verifies_witness :
  (find (Prisma.by_email "d@x.com") (users Demo.village) = Some Demo.dave
   /\ token Demo.dave = None)
  /\ fst (verifyToken "d@x.com" EmptyString Demo.village)
     = Throw (InternalServerErrorException "Token could not be verified.")
  /\ users (snd (verifyToken "d@x.com" EmptyString Demo.village)) = users Demo.village.
Proof.
  split; [split; reflexivity |].
  exact (verifyToken_null_token_never_verifies "d@x.com" EmptyString Demo.village
           Demo.dave eq_refl eq_refl).
Defined.

Lemma verifyToken_code_stays_valid_witness :
  (find (Prisma.by_email "a@x.com") (users Demo.world) = Some Demo.alice
   /\ token Demo.alice = Some "abc123"
   /\ calm 4 Demo.world)
  /\ exists w1 w2 u2,
       verifyToken "a@x.com" "abc123" Demo.world
       = (Ok (envelope "Valid Token" "success" 200 JNull), w1)
       /\ verifyToken "a@x.com" "abc123" w1
          = (Ok (envelope "Valid Token" "success" 200 JNull), w2)
       /\ find (Prisma.by_email "a@x.com") (users w2) = Some u2
       /\ verified u2 = Some true
       /\ token u2 = Some "abc123".
Proof.
  split; [repeat split; reflexivity |].
  exact (verifyToken_code_stays_valid "a@x.com" "abc123" Demo.world Demo.alice
           eq_refl eq_refl eq_refl).
Defined.

Lemma forgotPassword_stores_reset_code_witness :
  let dto := ForgotPasswordDto.make "b@x.com" in
  (find (Prisma.by_email "b@x.com") (users Demo.world) = Some Demo.bob
   /\ calm 2 Demo.world)
  /\ exists w' u',
       forgotPassword dto Demo.world
       = (Ok (envelope "Reset token has been sent to your email" "success" 200 JNull), w')
       /\ find (Prisma.by_email "b@x.com") (users w') = Some u'
       /\ resetToken u' = Some "9f3c07"
       /\ passwordhash u' = passwordhash Demo.bob
       /\ cursor w' = cursor Demo.world + 3.
Proof.
  intros dto. split; [split; reflexivity |].
  destruct (forgotPassword_stores_reset_code dto Demo.world Demo.bob eq_refl eq_refl)
    as (w' & u' & Hrun & Hfind & Hcode & _ & (Hhash & _) & _ & Hcursor).
  exists w', u'. repeat split; assumption.
Defined.

Lemma resetPassword_then_login_witness :
  let dto := ResetPasswordDto.make "b@x.com" "correct horse" in
  let hash := "9f3c07e15ab042424242424242424242:correct horse" in
  (find (Prisma.by_email "b@x.com") (users Demo.world) = Some Demo.bob
   /\ verified Demo.bob = Some true
   /\ calm 5 Demo.world
   /\ argon_verify_with hash "correct horse" = true
   /\ argon_verify_with hash "swordfish" = false)
  /\ exists w1,
       resetPassword dto Demo.world
       = (Ok (envelope "Password Reset successfully." "success" 200 JNull), w1)
       /\ (exists w2 signed,
             login (LoginDto.make "b@x.com" "correct horse") w1
             = (Ok (JObj [ ("access_token", JStr signed) ]), w2))
       /\ (exists w2,
             login (LoginDto.make "b@x.com" "swordfish") w1
             = (Throw (UnauthorizedException "Login failed, try again."), w2)).
Proof.
  intros dto hash. split; [repeat split; reflexivity |].
  destruct (resetPassword_then_login (collab := Demo.toy) dto "swordfish"
              Demo.world Demo.bob eq_refl eq_refl eq_refl eq_refl)
    as (w1 & Hrun & Hnew & Hold).
  exists w1. split; [exact Hrun |]. split; [exact Hnew | exact (Hold eq_refl)].
Defined.

Lemma resetPassword_unknown_email_witness :
  let dto := ResetPasswordDto.make "nobody@x.com" "pw" in
  find (Prisma.by_email "nobody@x.com") (users Demo.world) = None
  /\ fst (resetPassword dto Demo.world)
     = Throw (InternalServerErrorException "Password could not be reset.")
  /\ users (snd (resetPassword dto Demo.world)) = users Demo.world.
Proof.
  intros dto. split; [reflexivity |].
  exact (resetPassword_unknown_email dto Demo.world eq_refl).
Defined.

Lemma createFarm_then_getById_witness :
  let l := mkLocation "3.36" "6.53" in
  let s := mkSoilInfo (7 # 1)%Q "silt" in
  let dto := CreateFarmDto.make "East Field" (Some l) 2 "Plots" "Cultivation" (Some s) in
  let f := mkFarm "65f0aa01" "u1" "East Field" l 2 "Plots" "Cultivation" s
             (Some 1700000000%Z) (Some 1700000000%Z) in
  (find (Prisma.by_user_id "u1") (users Demo.world) = Some Demo.alice
   /\ find (Prisma.by_farm_id "65f0aa01") (farms Demo.world) = None
   /\ calm 3 Demo.world)
  /\ exists w1 w2,
       createFarm "u1" dto Demo.world
       = (Ok (envelope "Farm created" "success" 201 (farm_json f)), w1)
       /\ farms w1 = farms Demo.world ++ [f]
       /\ getById "u1" "65f0aa01" w1
          = (Ok (envelope "Farm retrieved successfully" "success" 200 (farm_json f)), w2).
Proof.
  intros l s dto f. split; [repeat split; reflexivity |].
  exact (createFarm_then_getById "u1" dto Demo.world Demo.alice l s
           eq_refl eq_refl eq_refl eq_refl eq_refl).
Defined.

Lemma createFarm_keeps_farm_when_link_fails_witness :
  let l := mkLocation "3.36" "6.53" in
  let s := mkSoilInfo (7 # 1)%Q "silt" in
  let dto := CreateFarmDto.make "East Field" (Some l) 2 "Plots" "Cultivation" (Some s) in
  (faulty Demo.world (clock Demo.world) = false
   /\ find (Prisma.by_user_id "u9") (users Demo.world) = None)
  /\ fst (createFarm "u9" dto Demo.world)
     = Throw (InternalServerErrorException "Farm could not be added.")
  /\ List.length (farms (snd (createFarm "u9" dto Demo.world))) = 2.
Proof.
  intros l s dto. split; [split; reflexivity |].
  destruct (createFarm_keeps_farm_when_link_fails "u9" dto Demo.world l s
              eq_refl eq_refl eq_refl (or_intror eq_refl)) as (Hthrow & Hfarms & _).
  split; [exact Hthrow |]. rewrite Hfarms. reflexivity.
Defined.

Lemma updateFarm_then_getById_witness :
  let dto := UpdateFarmDto.make "North Field" None 12 "Acres" "Harvesting" None in
  let f' := mkFarm "f1" "u1" "North Field" (mkLocation "3.35" "6.52") 12 "Acres"
              "Harvesting" (mkSoilInfo (13 # 2)%Q "loam") (Some 0%Z)
              (Some 1700000000%Z) in
  (find (Prisma.by_farmer_and_id "u1" "f1") (farms Demo.world) = Some Demo.north_field
   /\ calm 2 Demo.world)
  /\ exists w1 w2,
       updateFarm "u1" "f1" dto Demo.world
       = (Ok (envelope "Farm updated successfully" "success" 200 (farm_json f')), w1)
       /\ List.length (farms w1) = List.length (farms Demo.world)
       /\ getById "u1" "f1" w1
          = (Ok (envelope "Farm retrieved successfully" "success" 200 (farm_json f')), w2).
Proof.
  intros dto f'. split; [split; reflexivity |].
  exact (updateFarm_then_getById "u1" "f1" dto Demo.world Demo.north_field
           eq_refl eq_refl).
Defined.

Lemma farm_writes_need_ownership_witness :
  let dto := UpdateFarmDto.make "Mine now" None 1 "Plots" "Planting" None in
  find (Prisma.by_farmer_and_id "u2" "f1") (farms Demo.village) = None
  /\ In Demo.north_field (farms Demo.village)
  /\ fst (updateFarm "u2" "f1" dto Demo.village)
     = Throw (InternalServerErrorException "Farm could not be updated.")
  /\ farms (snd (updateFarm "u2" "f1" dto Demo.village)) = farms Demo.village
  /\ fst (deleteFarm "u2" "f1" Demo.village)
     = Throw (InternalServerErrorException "Farm could not be deleted.")
  /\ farms (snd (deleteFarm "u2" "f1" Demo.village)) = farms Demo.village.
Proof.
  intros dto. split; [reflexivity |]. split; [left; reflexivity |].
  destruct (farm_writes_need_ownership "u2" "f1" dto Demo.village eq_refl)
    as [[H1 H2] [H3 H4]].
  repeat split; assumption.
Defined.

Lemma farm_writes_leave_other_owners_alone_witness :
  let dto := UpdateFarmDto.make "South Field" None 5 "Hectares" "Planting" None in
  "u1" <> "u2"
  /\ filter (Prisma.by_farmer "u1") (farms (snd (updateFarm "u2" "f2" dto Demo.village)))
     = [Demo.north_field]
  /\ filter (Prisma.by_farmer "u1") (farms (snd (deleteFarm "u2" "f2" Demo.village)))
     = [Demo.north_field].
Proof.
  intros dto.
  assert (Hne : "u1" <> "u2") by discriminate.
  split; [exact Hne |].
  exact (farm_writes_leave_other_owners_alone "u2" "u1" "f2" dto Demo.village Hne).
Defined.

Lemma village_farm_ids_unique : NoDup (map farm_id (farms Demo.village)).
Proof.
  cbn. repeat constructor; cbn; intuition discriminate.
Qed.

Lemma deleteFarm_removes_exactly_that_farm_witness :
  (NoDup (map farm_id (farms Demo.village))
   /\ find (Prisma.by_farmer_and_id "u2" "f2") (farms Demo.village)
      = Some Demo.south_field
   /\ faulty Demo.village (clock Demo.village) = false)
  /\ exists w1,
       deleteFarm "u2" "f2" Demo.village
       = (Ok (envelope "Farm deleted successfully" "success" 200 JNull), w1)
       /\ S (List.length (farms w1)) = List.length (farms Demo.village)
       /\ fst (getById "u2" "f2" w1)
          = Throw (InternalServerErrorException "Farm could not be retrieved").
Proof.
  split; [split; [exact village_farm_ids_unique | split; reflexivity] |].
  destruct (deleteFarm_removes_exactly_that_farm "u2" "f2" Demo.village
              Demo.south_field village_farm_ids_unique eq_refl eq_refl)
    as (w1 & Hrun & Hlen & _ & Hgone).
  exists w1. split; [exact Hrun |]. split; [exact Hlen | exact (Hgone "u2")].
Defined.

End MoreRuns.
